(** * LCD driver (lcd.c) and card matching (code1.c): model and properties

    The firmware in [code1.c] targets a PIC16F887 and defines all seven
    interface pins ([LCD_ENABLE_PIN], [LCD_RS_PIN], [LCD_RW_PIN],
    [LCD_DATA4] .. [LCD_DATA7]) before it includes [lcd.c].  The
    preprocessor therefore selects the pin-access branches of [lcd.c]
    everywhere: control lines go through [output_bit], the data lines are
    turned around with [output_float] / [output_drive] and sampled with
    [input].  This file embeds exactly that preprocessed program.

    The display controller is hardware.  The driver is modelled against an
    arbitrary [Device]: something that observes every bus operation of the
    microcontroller and decides the level the microcontroller samples on a
    pin.  Each driver function is a computation that threads the device state
    and writes the list of bus operations it performed, in order. *)

From Stdlib Require Import ZArith List Bool Lia.
From Stdlib Require Ascii String.
Import ListNotations.
Open Scope Z_scope.

Set Implicit Arguments.

(** ** Pins and bus operations *)

Inductive pin : Type :=
| LCD_ENABLE_PIN
| LCD_RS_PIN
| LCD_RW_PIN
| LCD_DATA4
| LCD_DATA5
| LCD_DATA6
| LCD_DATA7.

Definition pin_eqb (p q : pin) : bool :=
  match p, q with
  | LCD_ENABLE_PIN, LCD_ENABLE_PIN
  | LCD_RS_PIN, LCD_RS_PIN
  | LCD_RW_PIN, LCD_RW_PIN
  | LCD_DATA4, LCD_DATA4
  | LCD_DATA5, LCD_DATA5
  | LCD_DATA6, LCD_DATA6
  | LCD_DATA7, LCD_DATA7 => true
  | _, _ => false
  end.

Definition is_data_pin (p : pin) : bool :=
  match p with
  | LCD_DATA4 | LCD_DATA5 | LCD_DATA6 | LCD_DATA7 => true
  | _ => false
  end.

(** What the compiler built-ins used by [lcd.c] do on the bus.  [Input p v]
    records that pin [p] was sampled and read as [v]. *)
Inductive bus_op : Type :=
| OutputBit (p : pin) (v : bool)
| OutputFloat (p : pin)
| OutputDrive (p : pin)
| Input (p : pin) (v : bool)
| DelayCycles (n : Z)
| DelayUs (n : Z)
| DelayMs (n : Z).

(** ** Devices *)

Record Device : Type := {
  dstate : Type;
  dev_step : dstate -> bus_op -> dstate;
  dev_sense : dstate -> pin -> bool
}.

(** ** 8-bit values *)

(** [BYTE] of the source: an unsigned 8-bit integer, kept as a [Z] that is
    wrapped where the source stores it in a [BYTE]. *)
Definition BYTE := Z.

Definition to_byte (z : Z) : BYTE := z mod 256.

Definition bit_test (v : Z) (b : Z) : bool := Z.testbit v b.

Definition b2z (b : bool) : Z := if b then 1 else 0.

(** ** Configuration constants of lcd.c *)

Definition LCD_TYPE : Z := 2.
Definition LCD_LINE_TWO : Z := 0x40.

Definition LCD_INIT_STRING : list BYTE :=
  [Z.lor 0x20 (Z.shiftl LCD_TYPE 2); 0xc; 1; 6].

(** ** The driver *)

Section Driver.

Variable dev : Device.

(** Bound on the number of iterations of one busy-wait loop.  The source
    loops are unbounded; a computation that needs more iterations than
    [fuel] has no result. *)
Variable fuel : nat.

Definition M (A : Type) : Type :=
  dstate dev -> option (A * dstate dev * list bus_op).

Definition ret {A} (a : A) : M A := fun d => Some (a, d, []).

Definition bind {A B} (m : M A) (f : A -> M B) : M B :=
  fun d =>
    match m d with
    | None => None
    | Some (a, d1, t1) =>
        match f a d1 with
        | None => None
        | Some (b, d2, t2) => Some (b, d2, t1 ++ t2)
        end
    end.

Notation "x <- m ;; k" := (bind m (fun x => k))
  (at level 61, m at next level, right associativity).
Notation "m ;; k" := (bind m (fun _ => k))
  (at level 61, right associativity).

Definition emit (op : bus_op) : M unit :=
  fun d => Some (tt, dev_step dev d op, [op]).

(** Compiler built-ins. *)
Definition output_bit (p : pin) (v : bool) : M unit := emit (OutputBit p v).
Definition output_float (p : pin) : M unit := emit (OutputFloat p).
Definition output_drive (p : pin) : M unit := emit (OutputDrive p).
Definition delay_cycles (n : Z) : M unit := emit (DelayCycles n).
Definition delay_us (n : Z) : M unit := emit (DelayUs n).
Definition delay_ms (n : Z) : M unit := emit (DelayMs n).

Definition input (p : pin) : M bool :=
  fun d =>
    let v := dev_sense dev d p in
    Some (v, dev_step dev d (Input p v), [Input p v]).

(** [while (cond) ;] *)
Fixpoint while_ (n : nat) (cond : M bool) : M unit :=
  match n with
  | O => fun _ => None
  | S n' => b <- cond ;; if b then while_ n' cond else ret tt
  end.

(** [for] over an explicit range of the loop variable. *)
Fixpoint for_ (range : list Z) (body : Z -> M unit) : M unit :=
  match range with
  | [] => ret tt
  | i :: rest => body i ;; for_ rest body
  end.

(** Macros of the pin-access configuration. *)
Definition lcd_output_enable (x : bool) : M unit := output_bit LCD_ENABLE_PIN x.
Definition lcd_output_rs (x : bool) : M unit := output_bit LCD_RS_PIN x.
Definition lcd_output_rw (x : bool) : M unit := output_bit LCD_RW_PIN x.
Definition lcd_enable_tris : M unit := output_drive LCD_ENABLE_PIN.
Definition lcd_rs_tris : M unit := output_drive LCD_RS_PIN.
Definition lcd_rw_tris : M unit := output_drive LCD_RW_PIN.

Definition lcd_read_nibble : M BYTE :=
  let n := 0x00 in
  b4 <- input LCD_DATA4 ;;
  let n := Z.lor n (b2z b4) in
  b5 <- input LCD_DATA5 ;;
  let n := Z.lor n (Z.shiftl (b2z b5) 1) in
  b6 <- input LCD_DATA6 ;;
  let n := Z.lor n (Z.shiftl (b2z b6) 2) in
  b7 <- input LCD_DATA7 ;;
  let n := Z.lor n (Z.shiftl (b2z b7) 3) in
  ret n.

Definition lcd_read_byte : M BYTE :=
  output_float LCD_DATA4 ;;
  output_float LCD_DATA5 ;;
  output_float LCD_DATA6 ;;
  output_float LCD_DATA7 ;;
  lcd_output_rw true ;;
  delay_cycles 1 ;;
  lcd_output_enable true ;;
  delay_cycles 1 ;;
  high <- lcd_read_nibble ;;
  lcd_output_enable false ;;
  delay_cycles 1 ;;
  lcd_output_enable true ;;
  delay_us 1 ;;
  low <- lcd_read_nibble ;;
  lcd_output_enable false ;;
  output_drive LCD_DATA4 ;;
  output_drive LCD_DATA5 ;;
  output_drive LCD_DATA6 ;;
  output_drive LCD_DATA7 ;;
  ret (to_byte (Z.lor (Z.shiftl high 4) low)).

Definition lcd_send_nibble (n : BYTE) : M unit :=
  output_bit LCD_DATA4 (bit_test n 0) ;;
  output_bit LCD_DATA5 (bit_test n 1) ;;
  output_bit LCD_DATA6 (bit_test n 2) ;;
  output_bit LCD_DATA7 (bit_test n 3) ;;
  delay_cycles 1 ;;
  lcd_output_enable true ;;
  delay_us 2 ;;
  lcd_output_enable false.

(** [while ( bit_test(lcd_read_byte(),7) ) ;] *)
Definition busy_wait : M unit :=
  while_ fuel (b <- lcd_read_byte ;; ret (bit_test b 7)).

(** [address] is a [BYTE] in the source; every call passes the literal 0
    or 1 and it only feeds [output_bit]. *)
Definition lcd_send_byte (address : bool) (n : BYTE) : M unit :=
  lcd_output_rs false ;;
  busy_wait ;;
  lcd_output_rs address ;;
  delay_cycles 1 ;;
  lcd_output_rw false ;;
  delay_cycles 1 ;;
  lcd_output_enable false ;;
  lcd_send_nibble (Z.shiftr n 4) ;;
  lcd_send_nibble (Z.land n 0xf).

Definition lcd_init : M unit :=
  output_drive LCD_DATA4 ;;
  output_drive LCD_DATA5 ;;
  output_drive LCD_DATA6 ;;
  output_drive LCD_DATA7 ;;
  lcd_enable_tris ;;
  lcd_rs_tris ;;
  lcd_rw_tris ;;
  lcd_output_rs false ;;
  lcd_output_rw false ;;
  lcd_output_enable false ;;
  delay_ms 15 ;;
  for_ [1; 2; 3] (fun _ => lcd_send_nibble 3 ;; delay_ms 5) ;;
  lcd_send_nibble 2 ;;
  for_ [0; 1; 2; 3]
    (fun i => lcd_send_byte false (nth (Z.to_nat i) LCD_INIT_STRING 0)).

Definition lcd_gotoxy (x y : BYTE) : M unit :=
  let address := if negb (y =? 1) then LCD_LINE_TWO else 0 in
  let address := to_byte (address + to_byte (x - 1)) in
  lcd_send_byte false (Z.lor 0x80 address).

Definition lcd_putc (c : BYTE) : M unit :=
  if c =? 12 then lcd_send_byte false 1 ;; delay_ms 2
  else if c =? 10 then lcd_gotoxy 1 2
  else if c =? 8 then lcd_send_byte false 0x10
  else lcd_send_byte true c.

Definition lcd_getc (x y : BYTE) : M BYTE :=
  lcd_gotoxy x y ;;
  busy_wait ;;
  lcd_output_rs true ;;
  value <- lcd_read_byte ;;
  lcd_output_rs false ;;
  ret value.

End Driver.

(** ** Card matching (code1.c) *)

Module Card.

(** [THE_1] is a global [int1]; [QUET_THE] writes it and returns it.  The
    arrays are read through [nth] with the indices the loop produces. *)
Definition elem (a : list BYTE) (i : Z) : BYTE := nth (Z.to_nat i) a 0.

(** The [for] loop of [QUET_THE] from index [i], with [n] iterations left
    before [i < 4] fails; the result is the final value of [THE_1]. *)
Fixpoint QUET_THE_loop (n : nat) (i : Z) (DATA UID : list BYTE)
         (THE_1 : bool) : bool :=
  match n with
  | O => THE_1
  | S n' =>
      if elem UID i =? elem DATA i
      then QUET_THE_loop n' (i + 1) DATA UID true
      else false
  end.

Definition QUET_THE (DATA UID : list BYTE) (THE_1 : bool) : bool * bool :=
  let THE_1 := QUET_THE_loop 4 0 DATA UID THE_1 in
  (THE_1, THE_1).

Definition DATA_TRUNG : list BYTE := [0xD3; 0x4D; 0xFC; 0x27].
Definition DATA_HUY : list BYTE := [0x73; 0x9F; 0x6F; 0x13].

End Card.

(** ** Observing the bus *)

(** Levels last written to the seven lines. *)
Record lines : Type := {
  l_en : bool;
  l_rs : bool;
  l_rw : bool;
  l_d4 : bool;
  l_d5 : bool;
  l_d6 : bool;
  l_d7 : bool
}.

Definition idle_lines : lines :=
  {| l_en := false; l_rs := false; l_rw := false;
     l_d4 := false; l_d5 := false; l_d6 := false; l_d7 := false |}.

Definition set_line (l : lines) (p : pin) (v : bool) : lines :=
  match p with
  | LCD_ENABLE_PIN =>
      {| l_en := v; l_rs := l_rs l; l_rw := l_rw l;
         l_d4 := l_d4 l; l_d5 := l_d5 l; l_d6 := l_d6 l; l_d7 := l_d7 l |}
  | LCD_RS_PIN =>
      {| l_en := l_en l; l_rs := v; l_rw := l_rw l;
         l_d4 := l_d4 l; l_d5 := l_d5 l; l_d6 := l_d6 l; l_d7 := l_d7 l |}
  | LCD_RW_PIN =>
      {| l_en := l_en l; l_rs := l_rs l; l_rw := v;
         l_d4 := l_d4 l; l_d5 := l_d5 l; l_d6 := l_d6 l; l_d7 := l_d7 l |}
  | LCD_DATA4 =>
      {| l_en := l_en l; l_rs := l_rs l; l_rw := l_rw l;
         l_d4 := v; l_d5 := l_d5 l; l_d6 := l_d6 l; l_d7 := l_d7 l |}
  | LCD_DATA5 =>
      {| l_en := l_en l; l_rs := l_rs l; l_rw := l_rw l;
         l_d4 := l_d4 l; l_d5 := v; l_d6 := l_d6 l; l_d7 := l_d7 l |}
  | LCD_DATA6 =>
      {| l_en := l_en l; l_rs := l_rs l; l_rw := l_rw l;
         l_d4 := l_d4 l; l_d5 := l_d5 l; l_d6 := v; l_d7 := l_d7 l |}
  | LCD_DATA7 =>
      {| l_en := l_en l; l_rs := l_rs l; l_rw := l_rw l;
         l_d4 := l_d4 l; l_d5 := l_d5 l; l_d6 := l_d6 l; l_d7 := v |}
  end.

Definition drive (l : lines) (op : bus_op) : lines :=
  match op with
  | OutputBit p v => set_line l p v
  | _ => l
  end.

Definition lines_after (l : lines) (t : list bus_op) : lines :=
  fold_left drive t l.

(** Lines as one status or data read leaves them. *)
Definition after_read (l : lines) : lines :=
  set_line (set_line l LCD_RW_PIN true) LCD_ENABLE_PIN false.

(** Data line 0 carries bit 0, ..., data line 3 carries bit 3. *)
Definition nibble_of_bits (b0 b1 b2 b3 : bool) : Z :=
  Z.lor (Z.lor (Z.lor (b2z b0) (Z.shiftl (b2z b1) 1)) (Z.shiftl (b2z b2) 2))
        (Z.shiftl (b2z b3) 3).

Definition nibble_on (l : lines) : Z :=
  nibble_of_bits (l_d4 l) (l_d5 l) (l_d6 l) (l_d7 l).

(** A write strobe: Enable falls while read/write is low.  The monitor
    reports, for each one, the register-select level and the nibble on the
    data lines. *)
Fixpoint written (l : lines) (t : list bus_op) : list (bool * Z) :=
  match t with
  | [] => []
  | op :: t' =>
      let l' := drive l op in
      if l_en l && negb (l_en l') && negb (l_rw l')
      then (l_rs l', nibble_on l') :: written l' t'
      else written l' t'
  end.

(** Two consecutive nibbles make one byte, high nibble first. *)
Fixpoint bytes_of (ns : list (bool * Z)) : list (bool * Z) :=
  match ns with
  | (rs, h) :: (_, lo) :: rest => (rs, Z.lor (Z.shiftl h 4) lo) :: bytes_of rest
  | _ => []
  end.

(** Direction of the data lines: [true] when the microcontroller drives
    them. *)
Definition drives_after (p : pin) (init : bool) (t : list bus_op) : bool :=
  fold_left
    (fun s op =>
       match op with
       | OutputFloat q => if pin_eqb p q then false else s
       | OutputDrive q => if pin_eqb p q then true else s
       | _ => s
       end) t init.

Definition writes_data_line (op : bus_op) : bool :=
  match op with
  | OutputBit p _ => is_data_pin p
  | _ => false
  end.

Definition writes_line (p : pin) (op : bus_op) : bool :=
  match op with
  | OutputBit q _ => pin_eqb p q
  | _ => false
  end.

Definition changes_direction (op : bus_op) : bool :=
  match op with
  | OutputFloat _ | OutputDrive _ => true
  | _ => false
  end.

(** Instruction encoding of the display controller: the highest set bit of a
    command byte selects the instruction. *)
Inductive instruction : Type :=
| ClearDisplay
| ReturnHome
| EntryModeSet
| DisplayControl
| CursorShift
| FunctionSet
| SetCGRAMAddress
| SetDDRAMAddress
| NoInstruction.

Definition decode (b : BYTE) : instruction :=
  if bit_test b 7 then SetDDRAMAddress
  else if bit_test b 6 then SetCGRAMAddress
  else if bit_test b 5 then FunctionSet
  else if bit_test b 4 then CursorShift
  else if bit_test b 3 then DisplayControl
  else if bit_test b 2 then EntryModeSet
  else if bit_test b 1 then ReturnHome
  else if bit_test b 0 then ClearDisplay
  else NoInstruction.

(** ** Straight-line pieces of the driver as explicit operation lists *)

Definition nibble_ops (n : BYTE) : list bus_op :=
  [OutputBit LCD_DATA4 (bit_test n 0);
   OutputBit LCD_DATA5 (bit_test n 1);
   OutputBit LCD_DATA6 (bit_test n 2);
   OutputBit LCD_DATA7 (bit_test n 3);
   DelayCycles 1;
   OutputBit LCD_ENABLE_PIN true;
   DelayUs 2;
   OutputBit LCD_ENABLE_PIN false].

(** What [lcd_send_byte] does once the busy-wait loop is over. *)
Definition transfer_ops (address : bool) (n : BYTE) : list bus_op :=
  [OutputBit LCD_RS_PIN address;
   DelayCycles 1;
   OutputBit LCD_RW_PIN false;
   DelayCycles 1;
   OutputBit LCD_ENABLE_PIN false]
  ++ nibble_ops (Z.shiftr n 4) ++ nibble_ops (Z.land n 0xf).

Definition float_ops : list bus_op :=
  [OutputFloat LCD_DATA4; OutputFloat LCD_DATA5;
   OutputFloat LCD_DATA6; OutputFloat LCD_DATA7].

Definition drive_ops : list bus_op :=
  [OutputDrive LCD_DATA4; OutputDrive LCD_DATA5;
   OutputDrive LCD_DATA6; OutputDrive LCD_DATA7].

Definition sample_ops (b4 b5 b6 b7 : bool) : list bus_op :=
  [Input LCD_DATA4 b4; Input LCD_DATA5 b5;
   Input LCD_DATA6 b6; Input LCD_DATA7 b7].

(** The part of [lcd_read_byte] between the two direction changes, given the
    eight levels sampled. *)
Definition strobe_read_ops (h4 h5 h6 h7 l4 l5 l6 l7 : bool) : list bus_op :=
  [OutputBit LCD_RW_PIN true; DelayCycles 1;
   OutputBit LCD_ENABLE_PIN true; DelayCycles 1]
  ++ sample_ops h4 h5 h6 h7
  ++ [OutputBit LCD_ENABLE_PIN false; DelayCycles 1;
      OutputBit LCD_ENABLE_PIN true; DelayUs 1]
  ++ sample_ops l4 l5 l6 l7
  ++ [OutputBit LCD_ENABLE_PIN false].

(** Everything [lcd_init] does before its loop over [LCD_INIT_STRING]. *)
Definition init_prefix_ops : list bus_op :=
  drive_ops ++
  [OutputDrive LCD_ENABLE_PIN; OutputDrive LCD_RS_PIN; OutputDrive LCD_RW_PIN;
   OutputBit LCD_RS_PIN false; OutputBit LCD_RW_PIN false;
   OutputBit LCD_ENABLE_PIN false; DelayMs 15]
  ++ (nibble_ops 3 ++ [DelayMs 5])
  ++ (nibble_ops 3 ++ [DelayMs 5])
  ++ (nibble_ops 3 ++ [DelayMs 5])
  ++ nibble_ops 2.

Section Runs.

Variable dev : Device.

Definition run_ops (d : dstate dev) (t : list bus_op) : dstate dev :=
  fold_left (dev_step dev) t d.

(** [lcd_read_byte] always returns; these are its three results. *)
Definition read_result (d : dstate dev) : BYTE * dstate dev * list bus_op :=
  match lcd_read_byte dev d with
  | Some r => r
  | None => (0, d, [])
  end.

Definition read_value (d : dstate dev) : BYTE := fst (fst (read_result d)).
Definition read_state (d : dstate dev) : dstate dev := snd (fst (read_result d)).
Definition read_trace (d : dstate dev) : list bus_op := snd (read_result d).

(** Device state before the [k]-th further status read. *)
Fixpoint after_polls (k : nat) (d : dstate dev) : dstate dev :=
  match k with
  | O => d
  | S k' => after_polls k' (read_state d)
  end.

(** The busy-wait loop as a relation: reads that show bit 7 set, closed by
    one read that shows it clear. *)
Inductive busy_polls : dstate dev -> list bus_op -> dstate dev -> Prop :=
| polls_ready d :
    bit_test (read_value d) 7 = false ->
    busy_polls d (read_trace d) (read_state d)
| polls_busy d t d' :
    bit_test (read_value d) 7 = true ->
    busy_polls (read_state d) t d' ->
    busy_polls d (read_trace d ++ t) d'.

End Runs.

(** ** Concrete devices *)

(** A device whose data lines always read low: its busy flag is never set. *)
Definition idle_device : Device :=
  {| dstate := unit;
     dev_step := fun d _ => d;
     dev_sense := fun _ _ => false |}.

(** A device whose data lines always read high: it reports busy for ever. *)
Definition stuck_device : Device :=
  {| dstate := unit;
     dev_step := fun d _ => d;
     dev_sense := fun _ _ => true |}.

(** Modelled from the spec: the display controller itself, which is hardware
    and has no source in the repository.  The model is the controller in
    4-bit operation as the spec describes it: a byte is two nibbles, high
    nibble first, each latched when Enable falls; the register-select line
    picks the instruction register or the character RAM; a read of the
    instruction register returns the busy flag in bit 7 and the address
    counter in bits 0-6; a read or write of the character RAM uses the
    address counter and moves it on by one; command [0x80 | a] sets the
    address counter and command [0x01] clears the RAM to blanks.  A byte that
    arrives while the controller is busy is lost.  After every byte it
    accepts, the controller stays busy for [latency] status reads.  All 128
    addresses of the 7-bit counter hold a character. *)
Module HD44780.

Record state : Type := mk {
  pins : lines;
  low_next : bool;
  high_latch : Z;
  ac : Z;
  ddram : Z -> Z;
  busy : nat
}.

Definition with_pins (s : state) (l : lines) : state :=
  mk l (low_next s) (high_latch s) (ac s) (ddram s) (busy s).

Definition blank : Z := 0x20.

Section Model.

Variable latency : nat.

Definition status (s : state) : Z :=
  Z.lor (match busy s with O => 0 | S _ => 0x80 end) (ac s).

Definition presented (s : state) : Z :=
  let b := if l_rs (pins s) then ddram s (ac s) else status s in
  if low_next s then Z.land b 0xf else Z.shiftr b 4.

(** Instruction register. *)
Definition execute (b : Z) (s : state) : state :=
  match decode b with
  | SetDDRAMAddress =>
      mk (pins s) false (high_latch s) (Z.land b 0x7f) (ddram s) latency
  | ClearDisplay =>
      mk (pins s) false (high_latch s) 0 (fun _ => blank) latency
  | ReturnHome =>
      mk (pins s) false (high_latch s) 0 (ddram s) latency
  | CursorShift =>
      let a := if bit_test b 3 then ac s
               else if bit_test b 2 then (ac s + 1) mod 128
               else (ac s - 1) mod 128 in
      mk (pins s) false (high_latch s) a (ddram s) latency
  | _ =>
      mk (pins s) false (high_latch s) (ac s) (ddram s) latency
  end.

(** Character RAM. *)
Definition store (b : Z) (s : state) : state :=
  mk (pins s) false (high_latch s) ((ac s + 1) mod 128)
     (fun a => if a =? ac s then b else ddram s a) latency.

(** Enable falls with read/write low. *)
Definition write_strobe (s : state) : state :=
  if low_next s then
    let b := Z.lor (Z.shiftl (high_latch s) 4) (nibble_on (pins s)) in
    match busy s with
    | O => if l_rs (pins s) then store b s else execute b s
    | S _ => mk (pins s) false (high_latch s) (ac s) (ddram s) (busy s)
    end
  else
    mk (pins s) true (nibble_on (pins s)) (ac s) (ddram s) (busy s).

(** Enable falls with read/write high. *)
Definition read_strobe (s : state) : state :=
  if low_next s then
    if l_rs (pins s)
    then mk (pins s) false (high_latch s) ((ac s + 1) mod 128) (ddram s) latency
    else mk (pins s) false (high_latch s) (ac s) (ddram s) (Nat.pred (busy s))
  else
    mk (pins s) true (high_latch s) (ac s) (ddram s) (busy s).

Definition step (s : state) (op : bus_op) : state :=
  let l' := drive (pins s) op in
  if l_en (pins s) && negb (l_en l')
  then if l_rw l' then read_strobe (with_pins s l')
       else write_strobe (with_pins s l')
  else with_pins s l'.

Definition sense (s : state) (p : pin) : bool :=
  let reading := l_en (pins s) && l_rw (pins s) in
  match p with
  | LCD_DATA4 => reading && bit_test (presented s) 0
  | LCD_DATA5 => reading && bit_test (presented s) 1
  | LCD_DATA6 => reading && bit_test (presented s) 2
  | LCD_DATA7 => reading && bit_test (presented s) 3
  | LCD_ENABLE_PIN => l_en (pins s)
  | LCD_RS_PIN => l_rs (pins s)
  | LCD_RW_PIN => l_rw (pins s)
  end.

Definition device : Device :=
  {| dstate := state; dev_step := step; dev_sense := sense |}.

(** State of the controller when a busy-wait loop ends. *)
Definition settled (s : state) : state :=
  mk (after_read (pins s)) false (high_latch s) (ac s) (ddram s) O.

(** State of the controller after it accepted byte [n]. *)
Definition after_byte (rs : bool) (n : Z) (s : state) : state :=
  let l := lines_after (after_read (set_line (pins s) LCD_RS_PIN false))
                       (transfer_ops rs n) in
  let s1 := mk l true (Z.land (Z.shiftr n 4) 0xf) (ac s) (ddram s) O in
  if rs then store n s1 else execute n s1.

(** Between two bytes: Enable low, no half byte pending, and a 7-bit
    address counter. *)
Definition ready (s : state) : Prop :=
  l_en (pins s) = false /\ low_next s = false /\
  0 <= ac s < 128.

End Model.

Definition power_on : state :=
  mk idle_lines false 0 0 (fun _ => blank) 0.

(** Still busy for two status reads. *)
Definition settling : state :=
  mk idle_lines false 0 0 (fun _ => blank) 2.

End HD44780.

(** ** Cursor positions *)

(** Per-line offset table of the spec. *)
Definition offset (row : Z) : Z := if row =? 1 then 0 else 0x40.

Definition linear_address (x y : Z) : Z := offset y + x - 1.

(** Rows 1 and 2; columns whose address stays inside the window of the row,
    which is [LCD_LINE_TWO] wide. *)
Definition valid_position (x y : Z) : Prop :=
  (y = 1 \/ y = 2) /\ 1 <= x <= LCD_LINE_TWO.

Definition printable (c : Z) : Prop := 32 <= c <= 126.

(** A call that is rejected returns without a single write strobe. *)
Definition rejected {dev : Device}
           (r : option (unit * dstate dev * list bus_op)) : Prop :=
  match r with
  | Some (_, _, t) => written idle_lines t = []
  | None => False
  end.

(** Command bytes of [lcd_init]: the write strobes after the four wake-up
    nibbles, paired into bytes. *)
Definition init_commands (t : list bus_op) : list (bool * Z) :=
  bytes_of (skipn 4 (written idle_lines t)).

(** ** printf to the display (code1.c) *)

Section Printf.

Variable dev : Device.
Variable fuel : nat.

(** [printf(LCD_PUTC, s)] for a text [s] without conversion specifications:
    [lcd_putc] is called on each character in turn. *)
Fixpoint printf_LCD_PUTC (s : list BYTE) : M dev unit :=
  match s with
  | [] => ret dev tt
  | c :: rest => bind (lcd_putc dev fuel c) (fun _ => printf_LCD_PUTC rest)
  end.

End Printf.

(** The byte one [lcd_putc(c)] puts on the bus, with its register-select
    level. *)
Definition putc_byte (c : BYTE) : bool * Z :=
  if c =? 12 then (false, 1)
  else if c =? 10 then (false, 0xC0)
  else if c =? 8 then (false, 0x10)
  else (true, c).

(** A stretch of bus operations that puts exactly the bytes [bs] on the bus,
    whatever the lines were before it and whatever follows it. *)
Definition shows (t : list bus_op) (bs : list (bool * Z)) : Prop :=
  forall l rest, bytes_of (written l t ++ rest) = bs ++ bytes_of rest.

(** Levels sampled on the data lines, in order. *)
Definition samples (t : list bus_op) : list (pin * bool) :=
  flat_map (fun op => match op with Input p v => [(p, v)] | _ => [] end) t.

(** ** The control loop (code1.c) *)

Module Text.

Import Ascii String.

Definition bytes (s : string) : list BYTE :=
  map (fun a => Z.of_N (N_of_ascii a)) (list_ascii_of_string s).

(** ['\f'] and ['\n'] *)
Definition FF : ascii := ascii_of_nat 12.
Definition NL : ascii := ascii_of_nat 10.

Definition title : list BYTE := bytes "HE THONG MO CUA".
Definition group : list BYTE := bytes "NHOM 10".
Definition initializing : list BYTE := bytes (String FF "  Initializing").
Definition done : list BYTE := bytes (String NL "*****Done!******").
Definition prompt : list BYTE := bytes (String FF "Xin moi quet the").
Definition thanh_trung : list BYTE := bytes (String FF " Thanh Trung ").
Definition thanh_huy : list BYTE := bytes (String FF "    Thanh Huy    ").
Definition welcome : list BYTE := bytes "xin moi ban vao".
Definition closed : list BYTE := bytes "Cua da duoc dong".
Definition invalid : list BYTE := bytes "The khong hop le".
Definition warning : list BYTE := bytes "WARNING!!!".

End Text.

Module Firmware.

(** Buzzer on [PIN_C0], lock on [PIN_C1]. *)
Inductive port_pin : Type := PIN_C0 | PIN_C1.

Definition port_pin_eqb (p q : port_pin) : bool :=
  match p, q with
  | PIN_C0, PIN_C0 | PIN_C1, PIN_C1 => true
  | _, _ => false
  end.

(** The card-reader library is not part of the repository: a call to it is an
    event, and what it returns is an input of the model. *)
Inductive reader_call : Type :=
| MFRC522_Init
| MFRC522_isCard
| MFRC522_ReadCardSerial
| MFRC522_Halt.

Inductive event : Type :=
| Bus (op : bus_op)
| OutputHigh (p : port_pin)
| OutputLow (p : port_pin)
| Reader (c : reader_call).

(** Globals of code1.c that the loop uses ([int1 THE_1], [int1 TAM],
    [char tt_1, tt_2]). *)
Record globals : Type := {
  THE_1 : bool;
  TAM : bool;
  tt_1 : BYTE;
  tt_2 : BYTE
}.

Definition reset_globals : globals :=
  {| THE_1 := false; TAM := false; tt_1 := 0; tt_2 := 0 |}.

(** What one pass of the loop gets from the reader: the result of
    [MFRC522_isCard] and, when [MFRC522_ReadCardSerial] succeeds, the six
    bytes it stores in [UID]. *)
Record swipe : Type := {
  card : bool;
  serial : option (list BYTE)
}.

(** Levels written to one port pin, in order. *)
Definition pin_writes (p : port_pin) (t : list event) : list bool :=
  flat_map (fun e =>
              match e with
              | OutputHigh q => if port_pin_eqb p q then [true] else []
              | OutputLow q => if port_pin_eqb p q then [false] else []
              | _ => []
              end) t.

Definition reader_calls (t : list event) : list reader_call :=
  flat_map (fun e => match e with Reader c => [c] | _ => [] end) t.

(** Milliseconds spent in [delay_ms]. *)
Definition waited_ms (t : list event) : Z :=
  fold_right (fun e acc =>
                match e with
                | Bus (DelayMs n) => n + acc
                | _ => acc
                end) 0 t.

(** Bus operations of the display driver, in order. *)
Definition bus_ops (t : list event) : list bus_op :=
  flat_map (fun e => match e with Bus op => [op] | _ => [] end) t.

(** Values of the loop variable of [for (i = 0; i < n; i++)]. *)
Definition upto (n : Z) : list Z := map Z.of_nat (seq 0 (Z.to_nat n)).

(** [n] beeps of [len] milliseconds as seen on the buzzer pin. *)
Definition beeps (n len : Z) : list bool :=
  concat (repeat (repeat true (Z.to_nat len) ++ [false]) (Z.to_nat n)).

(** The first four bytes of [UID] are those of [DATA]. *)
Definition matches (DATA UID : list BYTE) : Prop :=
  forall i, 0 <= i < 4 -> Card.elem UID i = Card.elem DATA i.

Definition authorised (UID : list BYTE) : Prop :=
  matches Card.DATA_TRUNG UID \/ matches Card.DATA_HUY UID.

Section Main.

Variable dev : Device.
Variable fuel : nat.

Definition P (A : Type) : Type :=
  dstate dev -> globals -> option (A * dstate dev * globals * list event).

Definition pret {A} (a : A) : P A := fun d g => Some (a, d, g, []).

Definition pbind {A B} (m : P A) (f : A -> P B) : P B :=
  fun d g =>
    match m d g with
    | None => None
    | Some (a, d1, g1, t1) =>
        match f a d1 g1 with
        | None => None
        | Some (b, d2, g2, t2) => Some (b, d2, g2, t1 ++ t2)
        end
    end.

Notation "x <- m ;; k" := (pbind m (fun x => k))
  (at level 61, m at next level, right associativity).
Notation "m ;; k" := (pbind m (fun _ => k))
  (at level 61, right associativity).

(** A call into lcd.c, or a delay. *)
Definition lift {A} (m : M dev A) : P A :=
  fun d g =>
    match m d with
    | None => None
    | Some (a, d1, t) => Some (a, d1, g, map Bus t)
    end.

Definition out (e : event) : P unit := fun d g => Some (tt, d, g, [e]).

Definition output_high (p : port_pin) : P unit := out (OutputHigh p).
Definition output_low (p : port_pin) : P unit := out (OutputLow p).
Definition reader (c : reader_call) : P unit := out (Reader c).
Definition delay_ms (n : Z) : P unit := lift (delay_ms dev n).
Definition lcd_gotoxy (x y : BYTE) : P unit := lift (lcd_gotoxy dev fuel x y).
Definition printf (s : list BYTE) : P unit := lift (printf_LCD_PUTC dev fuel s).

Definition get : P globals := fun d g => Some (g, d, g, []).
Definition put (g' : globals) : P unit := fun d _ => Some (tt, d, g', []).

Fixpoint pfor_ (range : list Z) (body : Z -> P unit) : P unit :=
  match range with
  | [] => pret tt
  | i :: rest => body i ;; pfor_ rest body
  end.

(** [QUET_THE] with its write to the global [THE_1]. *)
Definition QUET_THE (DATA UID : list BYTE) : P bool :=
  g <- get ;;
  let (r, the_1) := Card.QUET_THE DATA UID (THE_1 g) in
  put {| THE_1 := the_1; TAM := TAM g; tt_1 := tt_1 g; tt_2 := tt_2 g |} ;;
  pret r.

Definition bipbip (hoi tieng : BYTE) : P unit :=
  pfor_ (upto hoi) (fun _ =>
    pfor_ (upto tieng) (fun _ =>
      output_high PIN_C0 ;;
      delay_ms 1) ;;
    output_low PIN_C0 ;;
    delay_ms 10).

(** The body of [if (tt_1 == 1)] and of [else if (tt_2 == 1)]: the source
    has the same statements twice, with another name on the display.  [TAM]
    is one bit, so [else if (TAM == 1)] is the other case of
    [if (TAM == 0)]. *)
Definition door (name : list BYTE) : P unit :=
  g <- get ;;
  (if negb (TAM g) then
     printf name ;;
     lcd_gotoxy 0 2 ;;
     printf Text.welcome ;;
     bipbip 3 3 ;;
     delay_ms 100 ;;
     output_high PIN_C1
   else
     printf name ;;
     lcd_gotoxy 0 2 ;;
     printf Text.closed ;;
     bipbip 3 3 ;;
     delay_ms 100 ;;
     output_low PIN_C1) ;;
  g <- get ;;
  put {| THE_1 := THE_1 g; TAM := negb (TAM g);
         tt_1 := tt_1 g; tt_2 := tt_2 g |} ;;
  delay_ms 1000.

(** One pass of [WHILE (true)] in [main]. *)
Definition main_iteration (s : swipe) : P unit :=
  printf Text.prompt ;;
  reader MFRC522_isCard ;;
  if card s then
    reader MFRC522_ReadCardSerial ;;
    match serial s with
    | Some UID =>
        r <- QUET_THE Card.DATA_TRUNG UID ;;
        g <- get ;;
        put {| THE_1 := THE_1 g; TAM := TAM g;
               tt_1 := b2z r; tt_2 := tt_2 g |} ;;
        r <- QUET_THE Card.DATA_HUY UID ;;
        g <- get ;;
        put {| THE_1 := THE_1 g; TAM := TAM g;
               tt_1 := tt_1 g; tt_2 := b2z r |} ;;
        g <- get ;;
        if tt_1 g =? 1 then door Text.thanh_trung
        else if tt_2 g =? 1 then door Text.thanh_huy
        else
          lcd_gotoxy 0 1 ;;
          printf Text.invalid ;;
          lcd_gotoxy 4 2 ;;
          printf Text.warning ;;
          bipbip 10 10
    | None => pret tt
    end ;;
    reader MFRC522_Halt
  else pret tt.

(** The loop of [main] over the swipes of its first passes. *)
Fixpoint main_loop (swipes : list swipe) : P unit :=
  match swipes with
  | [] => pret tt
  | s :: rest => main_iteration s ;; main_loop rest
  end.

(** [main] up to the loop. *)
Definition main_startup : P unit :=
  lift (lcd_init dev fuel) ;;
  lcd_gotoxy 0 1 ;;
  printf Text.title ;;
  lcd_gotoxy 6 2 ;;
  printf Text.group ;;
  delay_ms 3000 ;;
  printf Text.initializing ;;
  reader MFRC522_Init ;;
  delay_ms 100 ;;
  printf Text.done ;;
  delay_ms 1000.

End Main.

(** Everything [bipbip(hoi, tieng)] does. *)
Definition bipbip_events (hoi tieng : Z) : list event :=
  concat (repeat
            (concat (repeat [OutputHigh PIN_C0; Bus (DelayMs 1)]
                            (Z.to_nat tieng))
             ++ [OutputLow PIN_C0; Bus (DelayMs 10)])
            (Z.to_nat hoi)).

(** The card of a swipe is on the allow-list. *)
Definition on_list (UID : list BYTE) : bool :=
  fst (Card.QUET_THE Card.DATA_TRUNG UID false) ||
  fst (Card.QUET_THE Card.DATA_HUY UID false).

Definition is_authorised (s : swipe) : bool :=
  card s &&
  match serial s with
  | Some UID => on_list UID
  | None => false
  end.

(** What a pass of the loop puts on the display bus. *)
Definition door_display (name : list BYTE) (tam : bool) : list (bool * Z) :=
  map putc_byte name ++ [(false, 0xBF)]
  ++ map putc_byte (if tam then Text.closed else Text.welcome).

Definition pass_display (s : swipe) (tam : bool) : list (bool * Z) :=
  map putc_byte Text.prompt ++
  (if card s then
     match serial s with
     | Some UID =>
         if fst (Card.QUET_THE Card.DATA_TRUNG UID false)
         then door_display Text.thanh_trung tam
         else if fst (Card.QUET_THE Card.DATA_HUY UID false)
         then door_display Text.thanh_huy tam
         else [(false, 0xFF)] ++ map putc_byte Text.invalid
              ++ [(false, 0xC3)] ++ map putc_byte Text.warning
     | None => []
     end
   else []).

(** What [main] puts on the display bus after [lcd_init]. *)
Definition startup_display : list (bool * Z) :=
  [(false, 0xFF)] ++ map putc_byte Text.title
  ++ [(false, 0xC5)] ++ map putc_byte Text.group
  ++ map putc_byte Text.initializing
  ++ map putc_byte Text.done.

(** The door flag after a run of swipes: each authorised card flips it. *)
Definition door_after (tam : bool) (swipes : list swipe) : bool :=
  fold_left (fun b s => if is_authorised s then negb b else b) swipes tam.

(** The levels a run of swipes writes to the lock pin. *)
Fixpoint lock_levels (tam : bool) (swipes : list swipe) : list bool :=
  match swipes with
  | [] => []
  | s :: rest =>
      if is_authorised s
      then negb tam :: lock_levels (negb tam) rest
      else lock_levels tam rest
  end.

End Firmware.

(** * Properties *)

(** ** Bits *)

Lemma b2z_testbit (b : bool) (i : Z) :
  Z.testbit (b2z b) i = (i =? 0) && b.
Proof.
  destruct b; simpl.
  - destruct i; reflexivity.
  - rewrite Z.testbit_0_l, andb_false_r. reflexivity.
Qed.

Lemma nibble_of_bits_testbit (b0 b1 b2 b3 : bool) (i : Z) :
  0 <= i ->
  Z.testbit (nibble_of_bits b0 b1 b2 b3) i =
  if i =? 0 then b0 else if i =? 1 then b1
  else if i =? 2 then b2 else if i =? 3 then b3 else false.
Proof.
  intros Hi. unfold nibble_of_bits.
  rewrite !Z.lor_spec, !Z.shiftl_spec, !b2z_testbit by assumption.
  destruct (Z.eqb_spec i 0) as [->|]; [destruct b0; reflexivity|].
  destruct (Z.eqb_spec i 1) as [->|]; [destruct b1; reflexivity|].
  destruct (Z.eqb_spec i 2) as [->|]; [destruct b2; reflexivity|].
  destruct (Z.eqb_spec i 3) as [->|]; [destruct b3; reflexivity|].
  replace (i - 1 =? 0) with false by (symmetry; apply Z.eqb_neq; lia).
  replace (i - 2 =? 0) with false by (symmetry; apply Z.eqb_neq; lia).
  replace (i - 3 =? 0) with false by (symmetry; apply Z.eqb_neq; lia).
  reflexivity.
Qed.

Lemma nibble_of_testbits (n : Z) :
  nibble_of_bits (bit_test n 0) (bit_test n 1) (bit_test n 2) (bit_test n 3)
  = Z.land n 0xf.
Proof.
  apply Z.bits_inj'. intros i Hi.
  rewrite nibble_of_bits_testbit by assumption.
  rewrite Z.land_spec. unfold bit_test.
  change 0xf with (Z.ones 4).
  destruct (Z.eqb_spec i 0) as [->|]; [rewrite andb_true_r; reflexivity|].
  destruct (Z.eqb_spec i 1) as [->|]; [rewrite andb_true_r; reflexivity|].
  destruct (Z.eqb_spec i 2) as [->|]; [rewrite andb_true_r; reflexivity|].
  destruct (Z.eqb_spec i 3) as [->|]; [rewrite andb_true_r; reflexivity|].
  rewrite Z.ones_spec_high by lia. rewrite andb_false_r. reflexivity.
Qed.

Lemma byte_of_nibbles (n : Z) :
  0 <= n < 256 ->
  Z.lor (Z.shiftl (Z.land (Z.shiftr n 4) 0xf) 4) (Z.land n 0xf) = n.
Proof.
  intros Hn. apply Z.bits_inj'. intros i Hi.
  rewrite Z.lor_spec, !Z.land_spec.
  change 0xf with (Z.ones 4).
  destruct (Z_lt_ge_dec i 4) as [Hlt|Hge].
  - rewrite Z.shiftl_spec_low by assumption.
    rewrite Z.ones_spec_low by lia. rewrite andb_true_r. reflexivity.
  - rewrite Z.shiftl_spec by assumption.
    rewrite Z.land_spec, Z.shiftr_spec by lia.
    rewrite (Z.ones_spec_high 4 i) by lia. rewrite andb_false_r, orb_false_r.
    replace (i - 4 + 4) with i by lia.
    destruct (Z_lt_ge_dec i 8) as [Hlt8|Hge8].
    + rewrite Z.ones_spec_low by lia. apply andb_true_r.
    + rewrite Z.ones_spec_high by lia. rewrite andb_false_r.
      symmetry. apply Z.bits_above_log2; [lia|].
      destruct (Z.eq_dec n 0) as [->|Hn0]; [simpl; lia|].
      apply Z.log2_lt_pow2; [lia|].
      apply Z.lt_le_trans with (2 ^ 8); [simpl; lia|].
      apply Z.pow_le_mono_r; lia.
Qed.

(** ** Monad and straight-line code *)

Section RunFacts.

Variable dev : Device.

Lemma bind_Some A B (m : M dev A) (f : A -> M dev B) d b d2 t :
  bind m f d = Some (b, d2, t) ->
  exists a d1 t1 t2,
    m d = Some (a, d1, t1) /\ f a d1 = Some (b, d2, t2) /\ t = t1 ++ t2.
Proof.
  unfold bind. destruct (m d) as [[[a d1] t1]|] eqn:Hm; [|discriminate].
  destruct (f a d1) as [[[b' d2'] t2]|] eqn:Hf; [|discriminate].
  intros H. injection H as <- <- <-.
  exists a, d1, t1, t2. repeat split; assumption || reflexivity.
Qed.

Lemma bind_run A B (m : M dev A) (f : A -> M dev B) d a d1 t1 :
  m d = Some (a, d1, t1) ->
  bind m f d =
  match f a d1 with
  | Some (b, d2, t2) => Some (b, d2, t1 ++ t2)
  | None => None
  end.
Proof. intros H. unfold bind. rewrite H. reflexivity. Qed.

Lemma lcd_send_nibble_run n d :
  lcd_send_nibble dev n d =
  Some (tt, run_ops dev d (nibble_ops n), nibble_ops n).
Proof. reflexivity. Qed.

Lemma lcd_read_byte_run d :
  lcd_read_byte dev d = Some (read_value dev d, read_state dev d, read_trace dev d).
Proof. reflexivity. Qed.

Lemma read_trace_shape d :
  exists h4 h5 h6 h7 l4 l5 l6 l7,
    read_trace dev d =
    float_ops ++ strobe_read_ops h4 h5 h6 h7 l4 l5 l6 l7 ++ drive_ops /\
    read_value dev d =
    to_byte (Z.lor (Z.shiftl (nibble_of_bits h4 h5 h6 h7) 4)
                   (nibble_of_bits l4 l5 l6 l7)).
Proof. do 8 eexists. split; reflexivity. Qed.

End RunFacts.

(** ** The busy-wait loop *)

Section BusyWait.

Variable dev : Device.

Lemma busy_wait_S n d :
  busy_wait dev (S n) d =
  if bit_test (read_value dev d) 7
  then match busy_wait dev n (read_state dev d) with
       | Some (u, d', t) => Some (u, d', read_trace dev d ++ t)
       | None => None
       end
  else Some (tt, read_state dev d, read_trace dev d).
Proof.
  unfold busy_wait. simpl while_.
  rewrite bind_run with (a := bit_test (read_value dev d) 7)
                        (d1 := read_state dev d) (t1 := read_trace dev d)
    by reflexivity.
  destruct (bit_test (read_value dev d) 7).
  - destruct (while_ _ _ _) as [[[u d'] t]|]; reflexivity.
  - reflexivity.
Qed.

Lemma busy_wait_polls n : forall d u d' t,
  busy_wait dev n d = Some (u, d', t) -> busy_polls dev d t d'.
Proof.
  induction n as [|n IH]; intros d u d' t H.
  - discriminate.
  - rewrite busy_wait_S in H.
    destruct (bit_test (read_value dev d) 7) eqn:Hb.
    + destruct (busy_wait dev n (read_state dev d)) as [[[u1 d1] t1]|] eqn:Hw;
        [|discriminate].
      injection H as <- <- <-.
      apply polls_busy; [assumption|]. eapply IH; eassumption.
    + injection H as <- <- <-. apply polls_ready; assumption.
Qed.

Lemma busy_wait_mono n : forall d r m,
  busy_wait dev n d = Some r -> (n <= m)%nat -> busy_wait dev m d = Some r.
Proof.
  induction n as [|n IH]; intros d r m H Hle.
  - discriminate.
  - destruct m as [|m]; [lia|].
    rewrite busy_wait_S in *.
    destruct (bit_test (read_value dev d) 7); [|assumption].
    destruct (busy_wait dev n (read_state dev d)) as [r1|] eqn:Hw;
      [|discriminate].
    rewrite (IH _ _ m Hw) by lia. assumption.
Qed.

Lemma polls_busy_wait d t d' :
  busy_polls dev d t d' ->
  exists n, busy_wait dev n d = Some (tt, d', t).
Proof.
  induction 1 as [d Hb|d t d' Hb _ [n IH]].
  - exists 1%nat. rewrite busy_wait_S, Hb. reflexivity.
  - exists (S n). rewrite busy_wait_S, Hb, IH. reflexivity.
Qed.

(** The loop finishes exactly when some status read shows bit 7 clear. *)
Lemma busy_wait_terminates_iff d :
  (exists n, busy_wait dev n d <> None) <->
  (exists k, bit_test (read_value dev (after_polls dev k d)) 7 = false).
Proof.
  split.
  - intros [n H]. revert d H.
    induction n as [|n IH]; intros d H.
    + contradiction H. reflexivity.
    + rewrite busy_wait_S in H.
      destruct (bit_test (read_value dev d) 7) eqn:Hb.
      * destruct (IH (read_state dev d)) as [k Hk].
        { destruct (busy_wait dev n (read_state dev d)); congruence. }
        exists (S k). exact Hk.
      * exists O. exact Hb.
  - intros [k H]. revert d H.
    induction k as [|k IH]; intros d H.
    + exists 1%nat. rewrite busy_wait_S. cbn [after_polls] in H.
      rewrite H. discriminate.
    + cbn [after_polls] in H. destruct (IH _ H) as [n Hn]. exists (S n).
      rewrite busy_wait_S.
      destruct (bit_test (read_value dev d) 7); [|discriminate].
      destruct (busy_wait dev n (read_state dev d)) as [[[u d'] t]|];
        [discriminate|congruence].
Qed.

Lemma busy_wait_always_busy d :
  (forall k, bit_test (read_value dev (after_polls dev k d)) 7 = true) ->
  forall n, busy_wait dev n d = None.
Proof.
  intros H n.
  destruct (busy_wait dev n d) eqn:Hw; [|reflexivity].
  destruct (proj1 (busy_wait_terminates_iff d)) as [k Hk].
  - exists n. congruence.
  - rewrite H in Hk. discriminate.
Qed.

(** [lcd_send_byte] is: register-select low, the loop, the transfer. *)
Lemma lcd_send_byte_unfold fuel address n d :
  lcd_send_byte dev fuel address n d =
  match busy_wait dev fuel (dev_step dev d (OutputBit LCD_RS_PIN false)) with
  | Some (_, d1, tp) =>
      Some (tt, run_ops dev d1 (transfer_ops address n),
            OutputBit LCD_RS_PIN false :: tp ++ transfer_ops address n)
  | None => None
  end.
Proof.
  unfold lcd_send_byte.
  rewrite bind_run with (a := tt)
                        (d1 := dev_step dev d (OutputBit LCD_RS_PIN false))
                        (t1 := [OutputBit LCD_RS_PIN false]) by reflexivity.
  unfold bind at 1.
  destruct (busy_wait dev fuel _) as [[[u d1] tp]|]; reflexivity.
Qed.

Lemma lcd_gotoxy_unfold fuel x y d :
  lcd_gotoxy dev fuel x y d =
  lcd_send_byte dev fuel false
    (Z.lor 0x80 (to_byte ((if negb (y =? 1) then LCD_LINE_TWO else 0)
                          + to_byte (x - 1)))) d.
Proof. reflexivity. Qed.

End BusyWait.

(** ** What the monitor sees *)

Lemma lines_after_app l (t1 t2 : list bus_op) :
  lines_after l (t1 ++ t2) = lines_after (lines_after l t1) t2.
Proof. apply fold_left_app. Qed.

Lemma written_app (t1 t2 : list bus_op) : forall l,
  written l (t1 ++ t2) = written l t1 ++ written (lines_after l t1) t2.
Proof.
  induction t1 as [|op t1 IH]; intros l; [reflexivity|].
  simpl. destruct (l_en l && negb (l_en (drive l op)) && negb (l_rw (drive l op)));
    simpl; rewrite IH; reflexivity.
Qed.

Section Monitor.

Variable dev : Device.

Lemma written_read_trace l d :
  written l (read_trace dev d) = [] /\
  lines_after l (read_trace dev d) = after_read l.
Proof.
  destruct l as [en rs rw d4 d5 d6 d7].
  split; [destruct en; reflexivity | reflexivity].
Qed.

Lemma written_polls d t d' :
  busy_polls dev d t d' ->
  forall l, written l t = [] /\ lines_after l t = after_read l.
Proof.
  induction 1 as [d Hb|d t d' Hb _ IH]; intros l.
  - apply written_read_trace.
  - destruct (written_read_trace l d) as [Hw Hl].
    rewrite written_app, lines_after_app, Hw, Hl.
    destruct (IH (after_read l)) as [Hw' Hl'].
    rewrite Hw', Hl'. split; reflexivity.
Qed.

Lemma polls_no_data_write d t d' :
  busy_polls dev d t d' ->
  forallb (fun op => negb (writes_data_line op)) t = true.
Proof.
  induction 1 as [d Hb|d t d' Hb _ IH].
  - reflexivity.
  - rewrite forallb_app, IH. reflexivity.
Qed.

Lemma polls_no_rs_write d t d' :
  busy_polls dev d t d' ->
  forallb (fun op => negb (writes_line LCD_RS_PIN op)) t = true.
Proof.
  induction 1 as [d Hb|d t d' Hb _ IH].
  - reflexivity.
  - rewrite forallb_app, IH. reflexivity.
Qed.

Lemma polls_nonempty d t d' : busy_polls dev d t d' -> t <> [].
Proof. destruct 1; discriminate. Qed.

Lemma written_transfer_ops l address n :
  l_en l = false ->
  written l (transfer_ops address n) =
  [(address, Z.land (Z.shiftr n 4) 0xf); (address, Z.land n 0xf)].
Proof.
  destruct l as [en rs rw d4 d5 d6 d7]. cbn [l_en]. intros ->.
  cbn -[nibble_of_bits Z.land Z.shiftr bit_test].
  unfold nibble_on; cbn [l_d4 l_d5 l_d6 l_d7].
  rewrite !nibble_of_testbits.
  rewrite <- (Z.land_assoc n). reflexivity.
Qed.

(** Whatever the lines were, [lcd_send_byte] makes exactly two write
    strobes: the two halves of [n], the upper one first, with
    register-select at the requested level. *)
Lemma written_send_byte fuel address n d d' t l :
  lcd_send_byte dev fuel address n d = Some (tt, d', t) ->
  written l t = [(address, Z.land (Z.shiftr n 4) 0xf); (address, Z.land n 0xf)].
Proof.
  rewrite lcd_send_byte_unfold.
  destruct (busy_wait dev fuel _) as [[[u d1] tp]|] eqn:Hw; [|discriminate].
  intros H. injection H as _ <-.
  apply busy_wait_polls in Hw.
  change (OutputBit LCD_RS_PIN false :: tp ++ transfer_ops address n)
    with ([OutputBit LCD_RS_PIN false] ++ tp ++ transfer_ops address n).
  rewrite !written_app.
  destruct (written_polls Hw (lines_after l [OutputBit LCD_RS_PIN false]))
    as [Hp Hl].
  rewrite Hp, Hl, written_transfer_ops by reflexivity.
  destruct l as [en rs rw d4 d5 d6 d7]; destruct en; reflexivity.
Qed.

Lemma bytes_of_send_byte fuel address n d d' t l :
  0 <= n < 256 ->
  lcd_send_byte dev fuel address n d = Some (tt, d', t) ->
  bytes_of (written l t) = [(address, n)].
Proof.
  intros Hn H. rewrite (written_send_byte _ _ _ _ l H).
  cbn [bytes_of]. rewrite byte_of_nibbles by assumption. reflexivity.
Qed.

End Monitor.

(** ** Arithmetic of bytes *)

Lemma shiftr4_nibble (n : Z) :
  0 <= n < 256 -> Z.land (Z.shiftr n 4) 0xf = Z.shiftr n 4.
Proof.
  intros Hn. change 0xf with (Z.ones 4).
  rewrite Z.land_ones by lia. rewrite Z.shiftr_div_pow2 by lia.
  apply Z.mod_small. change (2 ^ 4) with 16.
  split; [apply Z.div_pos; lia | apply Z.div_lt_upper_bound; lia].
Qed.

Lemma lor_byte_range (a b : Z) :
  0 <= a < 256 -> 0 <= b < 256 -> 0 <= Z.lor a b < 256.
Proof.
  intros Ha Hb. split; [apply Z.lor_nonneg; lia|].
  destruct (Z.eq_dec (Z.lor a b) 0) as [->|Hnz]; [lia|].
  change 256 with (2 ^ 8). apply Z.log2_lt_pow2.
  - assert (0 <= Z.lor a b) by (apply Z.lor_nonneg; lia). lia.
  - rewrite Z.log2_lor by lia.
    assert (La : Z.log2 a < 8).
    { destruct (Z.eq_dec a 0) as [->|]; [simpl; lia|].
      apply Z.log2_lt_pow2; simpl; lia. }
    assert (Lb : Z.log2 b < 8).
    { destruct (Z.eq_dec b 0) as [->|]; [simpl; lia|].
      apply Z.log2_lt_pow2; simpl; lia. }
    lia.
Qed.

Lemma gotoxy_address_wrap (x y : Z) :
  to_byte ((if negb (y =? 1) then LCD_LINE_TWO else 0) + to_byte (x - 1))
  = (offset y + x - 1) mod 256.
Proof.
  unfold to_byte, offset, LCD_LINE_TWO.
  rewrite Zplus_mod_idemp_r.
  destruct (y =? 1); simpl negb; cbv iota; f_equal; lia.
Qed.

Lemma set_address_decode (a : Z) :
  0 <= a -> decode (Z.lor 0x80 a) = SetDDRAMAddress.
Proof.
  intros Ha. unfold decode, bit_test.
  rewrite Z.lor_spec. reflexivity.
Qed.

Section Gotoxy.

Variable dev : Device.

(** The one byte [lcd_gotoxy] sends, for any arguments. *)
Lemma bytes_of_gotoxy fuel x y d d' t l :
  lcd_gotoxy dev fuel x y d = Some (tt, d', t) ->
  bytes_of (written l t) =
  [(false, Z.lor 0x80 ((offset y + x - 1) mod 256))].
Proof.
  rewrite lcd_gotoxy_unfold, gotoxy_address_wrap. intros H.
  eapply bytes_of_send_byte; [|exact H].
  apply lor_byte_range; [lia|]. apply Z.mod_pos_bound. lia.
Qed.

Lemma gotoxy_returns_iff fuel x y d :
  lcd_gotoxy dev fuel x y d = None <->
  busy_wait dev fuel (dev_step dev d (OutputBit LCD_RS_PIN false)) = None.
Proof.
  rewrite lcd_gotoxy_unfold, lcd_send_byte_unfold.
  destruct (busy_wait dev fuel _) as [[[u d1] tp]|]; split; congruence.
Qed.

End Gotoxy.

(** ** Claims about lcd_send_byte *)

(** C7. Nibble order: in every completed [lcd_send_byte(rs, n)] the operations
    of [lcd_send_nibble(n >> 4)] come before those of
    [lcd_send_nibble(n & 0xf)] and close the call, and a monitor on the bus
    sees exactly the nibbles [n >> 4] and [n & 0xf], in that order. *)
Theorem nibble_order (dev : Device) (fuel : nat) (rs : bool) (n : BYTE)
        (d d' : dstate dev) (t : list bus_op) (l : lines) :
  0 <= n < 256 ->
  lcd_send_byte dev fuel rs n d = Some (tt, d', t) ->
  (exists before,
      t = before ++ nibble_ops (Z.shiftr n 4) ++ nibble_ops (Z.land n 0xf)) /\
  map snd (written l t) = [Z.shiftr n 4; Z.land n 0xf].
Proof.
  intros Hn H. split.
  - rewrite lcd_send_byte_unfold in H.
    destruct (busy_wait dev fuel _) as [[[u d1] tp]|]; [|discriminate].
    injection H as _ <-.
    exists (OutputBit LCD_RS_PIN false :: tp ++
            [OutputBit LCD_RS_PIN rs; DelayCycles 1;
             OutputBit LCD_RW_PIN false; DelayCycles 1;
             OutputBit LCD_ENABLE_PIN false]).
    unfold transfer_ops. cbn [app]. f_equal.
    rewrite <- app_assoc. reflexivity.
  - rewrite (@written_send_byte dev fuel rs n d d' t l H).
    cbn [map snd]. rewrite shiftr4_nibble by assumption. reflexivity.
Qed.

Lemma nibble_order_witness :
  exists t,
    lcd_send_byte idle_device 1 true 0xAB tt = Some (tt, tt, t) /\
    map snd (written idle_lines t) = [0xA; 0xB].
Proof.
  eexists. split; [reflexivity|].
  apply (proj2 (@nibble_order idle_device 1 true 0xAB tt tt _ idle_lines
                  ltac:(lia) eq_refl)).
Defined.

(** C3. Busy-wait gating: a completed [lcd_send_byte(address, n)] is, in
    order, register-select driven low, then status reads that all show bit 7
    set except the last, which shows it clear, then the transfer, which
    starts by driving register-select to [address].  Up to the end of the
    status reads no data line is written and register-select is not touched
    again. *)
Theorem busy_wait_gating (dev : Device) (fuel : nat) (address : bool)
        (n : BYTE) (d d' : dstate dev) (t : list bus_op) :
  lcd_send_byte dev fuel address n d = Some (tt, d', t) ->
  exists polls d1,
    t = OutputBit LCD_RS_PIN false :: polls ++ transfer_ops address n /\
    busy_polls dev (dev_step dev d (OutputBit LCD_RS_PIN false)) polls d1 /\
    polls <> [] /\
    forallb (fun op => negb (writes_data_line op))
            (OutputBit LCD_RS_PIN false :: polls) = true /\
    forallb (fun op => negb (writes_line LCD_RS_PIN op)) polls = true /\
    (forall l, l_rs (lines_after l (OutputBit LCD_RS_PIN false :: polls)) = false) /\
    hd_error (transfer_ops address n) = Some (OutputBit LCD_RS_PIN address) /\
    d' = run_ops dev d1 (transfer_ops address n).
Proof.
  intros H. rewrite lcd_send_byte_unfold in H.
  destruct (busy_wait dev fuel _) as [[[u d1] tp]|] eqn:Hw; [|discriminate].
  injection H as <- <-.
  apply busy_wait_polls in Hw.
  exists tp, d1. repeat split.
  - exact Hw.
  - exact (polls_nonempty Hw).
  - cbn [forallb writes_data_line is_data_pin negb andb].
    exact (polls_no_data_write Hw).
  - exact (polls_no_rs_write Hw).
  - intros l.
    change (OutputBit LCD_RS_PIN false :: tp)
      with ([OutputBit LCD_RS_PIN false] ++ tp).
    rewrite lines_after_app.
    destruct (written_polls Hw (lines_after l [OutputBit LCD_RS_PIN false]))
      as [_ ->].
    reflexivity.
Qed.

Lemma busy_wait_gating_witness :
  exists d' t,
    lcd_send_byte (HD44780.device 2) 3 true 0x41 HD44780.settling
    = Some (tt, d', t) /\
    exists polls d1,
      t = OutputBit LCD_RS_PIN false :: polls ++ transfer_ops true 0x41 /\
      busy_polls (HD44780.device 2)
        (dev_step (HD44780.device 2) HD44780.settling
           (OutputBit LCD_RS_PIN false)) polls d1 /\
      polls <> [] /\
      forallb (fun op => negb (writes_data_line op))
              (OutputBit LCD_RS_PIN false :: polls) = true /\
      forallb (fun op => negb (writes_line LCD_RS_PIN op)) polls = true /\
      (forall l, l_rs (lines_after l (OutputBit LCD_RS_PIN false :: polls)) = false) /\
      hd_error (transfer_ops true 0x41) = Some (OutputBit LCD_RS_PIN true) /\
      d' = run_ops (HD44780.device 2) d1 (transfer_ops true 0x41).
Proof.
  eexists. eexists. split; [vm_compute; reflexivity|].
  apply (@busy_wait_gating (HD44780.device 2) 3 true 0x41 HD44780.settling).
  vm_compute. reflexivity.
Defined.

(** ** Claims about lcd_gotoxy *)

(** C4. Address computation: for every row 1 or 2 and every 1-based column
    whose address fits in a byte, a completed [lcd_gotoxy(x, y)] sends one
    byte, to the command register, equal to [0x80 | (offset(y) + x - 1)]
    with [offset(1) = 0] and [offset(2) = 0x40]; position (1,1) has linear
    address 0 and (1,2) has 0x40. *)
Theorem gotoxy_address (dev : Device) (fuel : nat) (x y : BYTE)
        (d d' : dstate dev) (t : list bus_op) (l : lines) :
  y = 1 \/ y = 2 ->
  1 <= x ->
  linear_address x y <= 255 ->
  lcd_gotoxy dev fuel x y d = Some (tt, d', t) ->
  bytes_of (written l t) = [(false, Z.lor 0x80 (linear_address x y))] /\
  offset 1 = 0 /\ offset 2 = 0x40 /\
  linear_address 1 1 = 0 /\ linear_address 1 2 = 0x40.
Proof.
  intros Hy Hx Hfit H. split; [|repeat split].
  rewrite (@bytes_of_gotoxy dev fuel x y d d' t l H).
  unfold linear_address in *. rewrite Z.mod_small; [reflexivity|].
  destruct Hy as [-> | ->];
    [change (offset 1) with 0 in * | change (offset 2) with 64 in *]; lia.
Qed.

Lemma gotoxy_address_witness :
  exists t,
    lcd_gotoxy idle_device 1 5 2 tt = Some (tt, tt, t) /\
    bytes_of (written idle_lines t) = [(false, 0xC4)].
Proof.
  eexists. split; [reflexivity|].
  apply (proj1 (@gotoxy_address idle_device 1 5 2 tt tt _ idle_lines
                  (or_intror eq_refl) ltac:(lia)
                  ltac:(unfold linear_address, offset; simpl; lia) eq_refl)).
Defined.

(** C9. [lcd_gotoxy] accepts every (x, y): the only way it does not return is
    a busy-wait loop that does not end.  Every row other than 1 uses offset
    0x40, the address is computed modulo 256, and the byte sent is
    [0x80 | address]; [lcd_gotoxy(0, 1)] sends [0x80 | 0xFF]. *)
Theorem gotoxy_accepts_all (dev : Device) (fuel : nat) (x y : BYTE)
        (d : dstate dev) :
  (lcd_gotoxy dev fuel x y d = None <->
   busy_wait dev fuel (dev_step dev d (OutputBit LCD_RS_PIN false)) = None) /\
  (forall d' t l,
      lcd_gotoxy dev fuel x y d = Some (tt, d', t) ->
      bytes_of (written l t) =
      [(false, Z.lor 0x80 (((if y =? 1 then 0 else 0x40) + x - 1) mod 256))]) /\
  (forall d' t l,
      lcd_gotoxy dev fuel 0 1 d = Some (tt, d', t) ->
      bytes_of (written l t) = [(false, Z.lor 0x80 0xFF)]).
Proof.
  split; [apply gotoxy_returns_iff|]. split.
  - intros d' t l H. exact (@bytes_of_gotoxy dev fuel x y d d' t l H).
  - intros d' t l H. exact (@bytes_of_gotoxy dev fuel 0 1 d d' t l H).
Qed.

Lemma gotoxy_accepts_all_witness :
  exists t,
    lcd_gotoxy idle_device 1 7 0 tt = Some (tt, tt, t) /\
    bytes_of (written idle_lines t) = [(false, 0xC6)].
Proof.
  eexists. split; [reflexivity|].
  apply (proj1 (proj2 (@gotoxy_accepts_all idle_device 1 7 0 tt))
           tt _ idle_lines eq_refl).
Defined.

(** C1 as stated fails: [lcd_gotoxy(0, 1)] and [lcd_gotoxy(1, 3)] are invalid
    positions, yet both calls return after writing an address command,
    [0xFF] and [0xC0]. *)
Lemma gotoxy_invalid_not_rejected :
  ~ valid_position 0 1 /\ ~ valid_position 1 3 /\
  ~ rejected (lcd_gotoxy idle_device 1 0 1 tt) /\
  ~ rejected (lcd_gotoxy idle_device 1 1 3 tt) /\
  option_map (fun r => bytes_of (written idle_lines (snd r)))
             (lcd_gotoxy idle_device 1 0 1 tt) = Some [(false, 0xFF)] /\
  option_map (fun r => bytes_of (written idle_lines (snd r)))
             (lcd_gotoxy idle_device 1 1 3 tt) = Some [(false, 0xC0)].
Proof.
  unfold valid_position, LCD_LINE_TWO.
  repeat split; try (vm_compute; discriminate); try reflexivity; lia.
Qed.

(** C1, amended. [lcd_gotoxy] has no rejection path: for every (x, y), valid
    or not, a call that returns has written exactly one byte, to the command
    register, and that byte is a set-address command; and the call does
    return as soon as some status read shows the busy flag clear. *)
Theorem gotoxy_never_rejects (dev : Device) (x y : BYTE) (d : dstate dev) :
  (forall fuel d' t,
      lcd_gotoxy dev fuel x y d = Some (tt, d', t) ->
      ~ rejected (lcd_gotoxy dev fuel x y d) /\
      exists b, bytes_of (written idle_lines t) = [(false, b)] /\
                decode b = SetDDRAMAddress) /\
  ((exists k,
       bit_test (read_value dev
                   (after_polls dev k
                      (dev_step dev d (OutputBit LCD_RS_PIN false)))) 7 = false) ->
   exists fuel d' t, lcd_gotoxy dev fuel x y d = Some (tt, d', t)).
Proof.
  split.
  - intros fuel d' t H. split.
    + rewrite H. unfold rejected.
      rewrite lcd_gotoxy_unfold in H.
      rewrite (@written_send_byte dev fuel false _ d d' t idle_lines H).
      discriminate.
    + eexists. split.
      * exact (@bytes_of_gotoxy dev fuel x y d d' t idle_lines H).
      * apply set_address_decode. apply Z.mod_pos_bound. lia.
  - intros Hk. apply busy_wait_terminates_iff in Hk. destruct Hk as [n Hn].
    exists n.
    destruct (lcd_gotoxy dev n x y d) as [[[[] d'] t]|] eqn:Hg.
    + exists d', t. reflexivity.
    + apply gotoxy_returns_iff in Hg. contradiction.
Qed.

Lemma gotoxy_never_rejects_witness :
  exists fuel d' t, lcd_gotoxy idle_device fuel 0 1 tt = Some (tt, d', t).
Proof.
  apply (proj2 (@gotoxy_never_rejects idle_device 0 1 tt)).
  exists O. reflexivity.
Defined.

(** ** Claims about lcd_init *)

Section Init.

Variable dev : Device.
Variable fuel : nat.

(** [lcd_init] is its fixed preamble followed by four [lcd_send_byte]
    calls to the command register, one per element of
    [LCD_INIT_STRING]. *)
Lemma lcd_init_inv d d' t :
  lcd_init dev fuel d = Some (tt, d', t) ->
  exists d1 d2 d3 t1 t2 t3 t4,
    lcd_send_byte dev fuel false 0x28 (run_ops dev d init_prefix_ops)
    = Some (tt, d1, t1) /\
    lcd_send_byte dev fuel false 0xc d1 = Some (tt, d2, t2) /\
    lcd_send_byte dev fuel false 1 d2 = Some (tt, d3, t3) /\
    lcd_send_byte dev fuel false 6 d3 = Some (tt, d', t4) /\
    t = init_prefix_ops ++ t1 ++ t2 ++ t3 ++ t4.
Proof.
  intros H.
  cbv [lcd_init bind output_drive emit lcd_enable_tris lcd_rs_tris
       lcd_rw_tris lcd_output_rs lcd_output_rw lcd_output_enable output_bit
       delay_ms delay_cycles delay_us for_ lcd_send_nibble ret] in H.
  do 4 (match type of H with
        | context [lcd_send_byte dev fuel false ?b ?s] =>
            let Hs := fresh "Hs" in
            destruct (lcd_send_byte dev fuel false b s)
              as [[[[] ?d] ?t]|] eqn:Hs;
            [cbv beta iota in H | discriminate H]
        end).
  injection H as <- <-.
  exists d0, d1, d2, t0, t1, t2, t3.
  repeat split; try assumption.
  rewrite app_nil_r. reflexivity.
Qed.

End Init.

(** C2 as stated fails: the third command byte [lcd_init] sends is
    clear-display and the fourth is entry-mode-set, not the other way
    round. *)
Lemma init_order_not_as_claimed :
  option_map (fun r => map (fun rb => decode (snd rb)) (init_commands (snd r)))
             (lcd_init idle_device 1 tt)
  = Some [FunctionSet; DisplayControl; ClearDisplay; EntryModeSet] /\
  option_map (fun r => map (fun rb => decode (snd rb)) (init_commands (snd r)))
             (lcd_init idle_device 1 tt)
  <> Some [FunctionSet; DisplayControl; EntryModeSet; ClearDisplay].
Proof. split; [reflexivity | vm_compute; discriminate]. Qed.

(** C2, amended. A completed [lcd_init] ends with exactly four
    [lcd_send_byte] calls to the command register, for the bytes of
    [LCD_INIT_STRING] in array order: 0x28 function-set, 0x0C
    display-control (display bit set, cursor and blink bits clear), 0x01
    clear-display, 0x06 entry-mode-set.  On the bus
    they follow the four wake-up nibbles 3, 3, 3, 2 and nothing else is
    written. *)
Theorem init_sequence (dev : Device) (fuel : nat) (d d' : dstate dev)
        (t : list bus_op) :
  lcd_init dev fuel d = Some (tt, d', t) ->
  (exists d1 d2 d3 t1 t2 t3 t4,
      lcd_send_byte dev fuel false 0x28 (run_ops dev d init_prefix_ops)
      = Some (tt, d1, t1) /\
      lcd_send_byte dev fuel false 0xc d1 = Some (tt, d2, t2) /\
      lcd_send_byte dev fuel false 1 d2 = Some (tt, d3, t3) /\
      lcd_send_byte dev fuel false 6 d3 = Some (tt, d', t4) /\
      t = init_prefix_ops ++ t1 ++ t2 ++ t3 ++ t4) /\
  LCD_INIT_STRING = [0x28; 0xc; 1; 6] /\
  (bit_test 0xc 2, bit_test 0xc 1, bit_test 0xc 0) = (true, false, false) /\
  firstn 4 (written idle_lines t) =
  [(false, 3); (false, 3); (false, 3); (false, 2)] /\
  init_commands t = [(false, 0x28); (false, 0xc); (false, 1); (false, 6)] /\
  map (fun rb => decode (snd rb)) (init_commands t) =
  [FunctionSet; DisplayControl; ClearDisplay; EntryModeSet].
Proof.
  intros H. pose proof (lcd_init_inv _ _ _ H) as Hinv.
  split; [exact Hinv|].
  destruct Hinv as (d1 & d2 & d3 & t1 & t2 & t3 & t4 & H1 & H2 & H3 & H4 & ->).
  assert (Hw : written idle_lines (init_prefix_ops ++ t1 ++ t2 ++ t3 ++ t4) =
               [(false, 3); (false, 3); (false, 3); (false, 2);
                (false, 2); (false, 8); (false, 0); (false, 12);
                (false, 0); (false, 1); (false, 0); (false, 6)]).
  { rewrite !written_app.
    rewrite (@written_send_byte dev fuel false _ _ _ _ _ H1).
    rewrite (@written_send_byte dev fuel false _ _ _ _ _ H2).
    rewrite (@written_send_byte dev fuel false _ _ _ _ _ H3).
    rewrite (@written_send_byte dev fuel false _ _ _ _ _ H4).
    reflexivity. }
  unfold init_commands. rewrite Hw. repeat split.
Qed.

Lemma init_sequence_witness :
  exists d' t,
    lcd_init (HD44780.device 2) 3 HD44780.power_on = Some (tt, d', t) /\
    init_commands t = [(false, 0x28); (false, 0xc); (false, 1); (false, 6)].
Proof.
  eexists. eexists. split; [vm_compute; reflexivity|].
  refine (proj1 (proj2 (proj2 (proj2 (proj2
            (@init_sequence (HD44780.device 2) 3 HD44780.power_on _ _ _)))))).
  vm_compute. reflexivity.
Defined.

(** ** Direction of the data lines *)

Lemma drives_after_app p init (t1 t2 : list bus_op) :
  drives_after p init (t1 ++ t2) = drives_after p (drives_after p init t1) t2.
Proof. apply fold_left_app. Qed.

Section Direction.

Variable dev : Device.

Lemma drives_after_read p init d :
  is_data_pin p = true -> drives_after p init (read_trace dev d) = true.
Proof. destruct p; try discriminate; reflexivity. Qed.

Lemma lcd_getc_unfold fuel x y d :
  lcd_getc dev fuel x y d =
  match lcd_gotoxy dev fuel x y d with
  | None => None
  | Some (_, d1, t1) =>
      match busy_wait dev fuel d1 with
      | None => None
      | Some (_, d2, t2) =>
          let d3 := dev_step dev d2 (OutputBit LCD_RS_PIN true) in
          Some (read_value dev d3,
                dev_step dev (read_state dev d3) (OutputBit LCD_RS_PIN false),
                t1 ++ t2 ++ [OutputBit LCD_RS_PIN true]
                   ++ read_trace dev d3 ++ [OutputBit LCD_RS_PIN false])
      end
  end.
Proof.
  unfold lcd_getc, bind.
  destruct (lcd_gotoxy dev fuel x y d) as [[[u1 d1] t1]|]; [|reflexivity].
  destruct (busy_wait dev fuel d1) as [[[u2 d2] t2]|]; reflexivity.
Qed.

End Direction.

(** C6. [lcd_read_byte] always returns, and what it does is: float the four
    data lines, then operations none of which changes a direction, then
    drive the four data lines.  So the data lines are inputs after the first
    part and outputs when the function returns, whatever they were before
    and whatever was read.  The same holds when [lcd_getc] returns. *)
Theorem read_restores_direction (dev : Device) (d : dstate dev) :
  (exists v d' middle,
      lcd_read_byte dev d = Some (v, d', float_ops ++ middle ++ drive_ops) /\
      forallb (fun op => negb (changes_direction op)) middle = true /\
      forall p init,
        is_data_pin p = true ->
        drives_after p init float_ops = false /\
        drives_after p init (float_ops ++ middle) = false /\
        drives_after p init (float_ops ++ middle ++ drive_ops) = true) /\
  (forall fuel x y v d' t p init,
      lcd_getc dev fuel x y d = Some (v, d', t) ->
      is_data_pin p = true ->
      drives_after p init t = true).
Proof.
  split.
  - destruct (read_trace_shape dev d)
      as (h4 & h5 & h6 & h7 & l4 & l5 & l6 & l7 & Ht & _).
    exists (read_value dev d), (read_state dev d),
           (strobe_read_ops h4 h5 h6 h7 l4 l5 l6 l7).
    rewrite lcd_read_byte_run, Ht. split; [reflexivity|].
    split; [reflexivity|].
    intros p init Hp. destruct p; try discriminate; repeat split.
  - intros fuel x y v d' t p init H Hp.
    rewrite lcd_getc_unfold in H.
    destruct (lcd_gotoxy dev fuel x y d) as [[[u1 d1] t1]|]; [|discriminate].
    destruct (busy_wait dev fuel d1) as [[[u2 d2] t2]|]; [|discriminate].
    cbv zeta in H. injection H as _ _ <-.
    rewrite !drives_after_app.
    destruct p; try discriminate; reflexivity.
Qed.

Lemma read_restores_direction_witness :
  exists v d' t,
    lcd_getc (HD44780.device 1) 2 3 2 HD44780.power_on = Some (v, d', t) /\
    drives_after LCD_DATA7 false t = true.
Proof.
  do 3 eexists. split; [vm_compute; reflexivity|].
  refine (proj2 (@read_restores_direction (HD44780.device 1) HD44780.power_on)
            2%nat 3 2 _ _ _ LCD_DATA7 false _ eq_refl).
  vm_compute. reflexivity.
Defined.

(** ** No timeout *)

Section Unbounded.

Variable dev : Device.

Lemma lcd_send_byte_mono fuel fuel' address n d r :
  lcd_send_byte dev fuel address n d = Some r -> (fuel <= fuel')%nat ->
  lcd_send_byte dev fuel' address n d = Some r.
Proof.
  rewrite !lcd_send_byte_unfold. intros H Hle.
  destruct (busy_wait dev fuel _) as [r1|] eqn:Hw; [|discriminate].
  rewrite (busy_wait_mono _ _ Hw Hle). exact H.
Qed.

Lemma send_byte_terminates_iff address n d :
  (exists fuel, lcd_send_byte dev fuel address n d <> None) <->
  (exists k,
      bit_test (read_value dev
                  (after_polls dev k
                     (dev_step dev d (OutputBit LCD_RS_PIN false)))) 7 = false).
Proof.
  rewrite <- busy_wait_terminates_iff.
  split; intros [fuel H]; exists fuel; rewrite lcd_send_byte_unfold in *;
    destruct (busy_wait dev fuel _) as [[[u d1] tp]|]; congruence.
Qed.

End Unbounded.

Lemma stuck_device_always_busy (k : nat) (d : dstate stuck_device) :
  bit_test (read_value stuck_device (after_polls stuck_device k d)) 7 = true.
Proof. induction k as [|k IH]; [reflexivity | exact IH]. Qed.

(** C8. The busy-wait loops have no timeout.  [lcd_send_byte] returns, for
    some bound on the loop, exactly when some status read shows bit 7 clear;
    [lcd_getc] returns exactly when its [lcd_gotoxy] does and some later
    status read shows bit 7 clear.  Against a device that shows bit 7 set at
    every status read neither call returns, whatever the bound. *)
Theorem busy_wait_unbounded (dev : Device) (address : bool) (n x y : BYTE)
        (d : dstate dev) :
  ((exists fuel, lcd_send_byte dev fuel address n d <> None) <->
   (exists k,
       bit_test (read_value dev
                   (after_polls dev k
                      (dev_step dev d (OutputBit LCD_RS_PIN false)))) 7 = false)) /\
  ((exists fuel, lcd_getc dev fuel x y d <> None) <->
   (exists fuel d1 t1,
       lcd_gotoxy dev fuel x y d = Some (tt, d1, t1) /\
       exists k, bit_test (read_value dev (after_polls dev k d1)) 7 = false)) /\
  ((forall k,
       bit_test (read_value dev
                   (after_polls dev k
                      (dev_step dev d (OutputBit LCD_RS_PIN false)))) 7 = true) ->
   forall fuel,
     lcd_send_byte dev fuel address n d = None /\
     lcd_getc dev fuel x y d = None).
Proof.
  split; [apply send_byte_terminates_iff|]. split.
  - split.
    + intros [fuel H]. rewrite lcd_getc_unfold in H.
      destruct (lcd_gotoxy dev fuel x y d) as [[[[] d1] t1]|] eqn:Hg;
        [|congruence].
      exists fuel, d1, t1. split; [exact Hg|].
      apply busy_wait_terminates_iff. exists fuel.
      destruct (busy_wait dev fuel d1); congruence.
    + intros (fuel & d1 & t1 & Hg & Hk).
      apply busy_wait_terminates_iff in Hk. destruct Hk as [m Hm].
      destruct (busy_wait dev m d1) as [r|] eqn:Hw; [|congruence].
      exists (Nat.max fuel m). rewrite lcd_getc_unfold.
      unfold lcd_gotoxy in *.
      rewrite (@lcd_send_byte_mono dev _ (Nat.max fuel m) _ _ _ _ Hg
                 (Nat.le_max_l fuel m)).
      rewrite (@busy_wait_mono dev _ _ _ (Nat.max fuel m) Hw
                 (Nat.le_max_r fuel m)).
      destruct r as [[u2 d2] t2]. discriminate.
  - intros Hbusy fuel.
    assert (Hs : forall a b, lcd_send_byte dev fuel a b d = None).
    { intros a b. rewrite lcd_send_byte_unfold.
      rewrite busy_wait_always_busy by assumption. reflexivity. }
    split; [apply Hs|].
    rewrite lcd_getc_unfold. unfold lcd_gotoxy. rewrite Hs. reflexivity.
Qed.

Lemma busy_wait_unbounded_witness :
  lcd_send_byte stuck_device 1000 true 0x41 tt = None /\
  forall fuel,
    lcd_send_byte stuck_device fuel true 0x41 tt = None /\
    lcd_getc stuck_device fuel 1 1 tt = None.
Proof.
  split.
  - apply (proj2 (proj2 (@busy_wait_unbounded stuck_device true 0x41 1 1 tt))
             (fun k => stuck_device_always_busy k tt) 1000%nat).
  - apply (proj2 (proj2 (@busy_wait_unbounded stuck_device true 0x41 1 1 tt))
             (fun k => stuck_device_always_busy k tt)).
Defined.

(** ** Card matching *)

Lemma QUET_THE_loop_four (DATA UID : list BYTE) (THE_1 : bool) :
  Card.QUET_THE_loop 4 0 DATA UID THE_1 = true <->
  (forall i, 0 <= i < 4 -> Card.elem UID i = Card.elem DATA i).
Proof.
  cbn [Card.QUET_THE_loop Z.add Pos.add Pos.succ].
  split.
  - intros H i Hi.
    destruct (Z.eqb_spec (Card.elem UID 0) (Card.elem DATA 0)); [|discriminate].
    destruct (Z.eqb_spec (Card.elem UID 1) (Card.elem DATA 1)); [|discriminate].
    destruct (Z.eqb_spec (Card.elem UID 2) (Card.elem DATA 2)); [|discriminate].
    destruct (Z.eqb_spec (Card.elem UID 3) (Card.elem DATA 3)); [|discriminate].
    assert (Hc : i = 0 \/ i = 1 \/ i = 2 \/ i = 3) by lia.
    destruct Hc as [-> | [-> | [-> | ->]]]; assumption.
  - intros H.
    rewrite (H 0), (H 1), (H 2), (H 3) by lia.
    rewrite !Z.eqb_refl. reflexivity.
Qed.

(** C10. [QUET_THE(DATA, UID)] returns 1 exactly when [UID[i] == DATA[i]]
    for each of the indices 0, 1, 2, 3, and leaves the same value in
    [THE_1].  Indices 4 and 5 of [UID] are not read: changing them changes
    nothing, so two cards that differ only there are matched alike. *)
Theorem QUET_THE_first_four (DATA UID : list BYTE) (THE_1 : bool) :
  (fst (Card.QUET_THE DATA UID THE_1) = true <->
   forall i, 0 <= i < 4 -> Card.elem UID i = Card.elem DATA i) /\
  snd (Card.QUET_THE DATA UID THE_1) = fst (Card.QUET_THE DATA UID THE_1) /\
  (forall UID' THE_1',
      (forall i, 0 <= i < 4 -> Card.elem UID' i = Card.elem UID i) ->
      Card.QUET_THE DATA UID' THE_1' = Card.QUET_THE DATA UID THE_1) /\
  (forall u0 u1 u2 u3 a4 a5 b4 b5,
      Card.QUET_THE DATA [u0; u1; u2; u3; a4; a5] THE_1 =
      Card.QUET_THE DATA [u0; u1; u2; u3; b4; b5] THE_1).
Proof.
  assert (Hindep : forall U U' T T',
             (forall i, 0 <= i < 4 -> Card.elem U' i = Card.elem U i) ->
             Card.QUET_THE DATA U' T' = Card.QUET_THE DATA U T).
  { intros U U' T T' H. unfold Card.QUET_THE.
    cbn [Card.QUET_THE_loop Z.add Pos.add Pos.succ].
    rewrite (H 0), (H 1), (H 2), (H 3) by lia.
    destruct (Card.elem U 0 =? Card.elem DATA 0); [|reflexivity].
    destruct (Card.elem U 1 =? Card.elem DATA 1); [|reflexivity].
    destruct (Card.elem U 2 =? Card.elem DATA 2); [|reflexivity].
    destruct (Card.elem U 3 =? Card.elem DATA 3); reflexivity. }
  split; [apply QUET_THE_loop_four|].
  split; [reflexivity|].
  split; [intros; apply Hindep; assumption|].
  intros. apply Hindep. intros i Hi.
  assert (Hc : i = 0 \/ i = 1 \/ i = 2 \/ i = 3) by lia.
  destruct Hc as [-> | [-> | [-> | ->]]]; reflexivity.
Qed.

Lemma QUET_THE_first_four_witness :
  fst (Card.QUET_THE Card.DATA_TRUNG [0xD3; 0x4D; 0xFC; 0x27; 0x11; 0x22] false)
  = true /\
  Card.QUET_THE Card.DATA_TRUNG [0xD3; 0x4D; 0xFC; 0x27; 0x99; 0x88] false
  = Card.QUET_THE Card.DATA_TRUNG [0xD3; 0x4D; 0xFC; 0x27; 0x11; 0x22] false.
Proof.
  pose proof (@QUET_THE_first_four Card.DATA_TRUNG
                [0xD3; 0x4D; 0xFC; 0x27; 0x11; 0x22] false) as (Hiff & _ & Hind & _).
  split.
  - apply (proj2 Hiff). intros i Hi.
    assert (Hc : i = 0 \/ i = 1 \/ i = 2 \/ i = 3) by lia.
    destruct Hc as [-> | [-> | [-> | ->]]]; reflexivity.
  - apply Hind. intros i Hi.
    assert (Hc : i = 0 \/ i = 1 \/ i = 2 \/ i = 3) by lia.
    destruct Hc as [-> | [-> | [-> | ->]]]; reflexivity.
Defined.

(** ** The driver against the controller model *)

Lemma testbit_above (a n : Z) : 0 <= n -> 0 <= a < 2 ^ n -> Z.testbit a n = false.
Proof.
  intros Hn Ha. destruct (Z.eq_dec a 0) as [->|Hnz]; [apply Z.testbit_0_l|].
  apply Z.bits_above_log2; [lia|]. apply Z.log2_lt_pow2; lia.
Qed.

Lemma byte_reassembled (b : Z) :
  0 <= b < 256 ->
  to_byte (Z.lor (Z.shiftl (Z.land (Z.shiftr b 4) 0xf) 4)
                 (Z.land (Z.land b 0xf) 0xf)) = b.
Proof.
  intros Hb. rewrite <- (Z.land_assoc b). change (Z.land 0xf 0xf) with 0xf.
  rewrite byte_of_nibbles by assumption. apply Z.mod_small. assumption.
Qed.

Lemma set_address_field (a : Z) :
  0 <= a < 128 -> Z.land (Z.lor 0x80 a) 0x7f = a.
Proof.
  intros Ha. rewrite Z.land_lor_distr_l.
  change (Z.land 0x80 0x7f) with 0. rewrite Z.lor_0_l.
  change 0x7f with (Z.ones 7). rewrite Z.land_ones by lia.
  apply Z.mod_small. simpl. lia.
Qed.

Section Controller.

Variable latency : nat.

Local Abbreviation D := (HD44780.device latency).

Import HD44780.

Lemma status_range s : 0 <= ac s < 128 -> 0 <= status s < 256.
Proof.
  intros Ha. unfold status.
  apply lor_byte_range; [destruct (busy s); lia | lia].
Qed.

Lemma status_busy_flag s :
  0 <= ac s < 128 ->
  bit_test (status s) 7 = match busy s with O => false | S _ => true end.
Proof.
  intros Ha. unfold status, bit_test. rewrite Z.lor_spec.
  rewrite (@testbit_above (ac s) 7) by (simpl; lia).
  destruct (busy s); reflexivity.
Qed.

Lemma hd_read_state s :
  l_en (pins s) = false -> low_next s = false ->
  read_state D s =
  if l_rs (pins s)
  then mk (after_read (pins s)) false (high_latch s)
          ((ac s + 1) mod 128) (ddram s) latency
  else mk (after_read (pins s)) false (high_latch s)
          (ac s) (ddram s) (Nat.pred (busy s)).
Proof.
  destruct s as [[en rs rw d4 d5 d6 d7] ln hl a dd b].
  cbn [pins l_en low_next]. intros -> ->.
  destruct rs; reflexivity.
Qed.

Lemma hd_read_value s :
  l_en (pins s) = false -> low_next s = false ->
  read_value D s =
  let b := if l_rs (pins s) then ddram s (ac s) else status s in
  to_byte (Z.lor (Z.shiftl (Z.land (Z.shiftr b 4) 0xf) 4)
                 (Z.land (Z.land b 0xf) 0xf)).
Proof.
  destruct s as [[en rs rw d4 d5 d6 d7] ln hl a dd b].
  cbn [pins l_en low_next]. intros -> ->. cbv zeta.
  destruct rs; cbn [l_rs pins ddram ac];
    match goal with
    | |- _ = to_byte (Z.lor (Z.shiftl (Z.land ?h 15) 4) (Z.land ?l 15)) =>
        rewrite <- (nibble_of_testbits h), <- (nibble_of_testbits l)
    end; reflexivity.
Qed.

Lemma hd_transfer s rs n :
  l_en (pins s) = false -> low_next s = false -> busy s = O ->
  run_ops D s (transfer_ops rs n) =
  let l := lines_after (pins s) (transfer_ops rs n) in
  let b := Z.lor (Z.shiftl (Z.land (Z.shiftr n 4) 0xf) 4)
                 (Z.land (Z.land n 0xf) 0xf) in
  let s1 := mk l true (Z.land (Z.shiftr n 4) 0xf) (ac s) (ddram s) O in
  if rs then store latency b s1 else execute latency b s1.
Proof.
  destruct s as [[en rs0 rw d4 d5 d6 d7] ln hl a dd b].
  cbn [pins l_en low_next busy]. intros -> -> ->. cbv zeta.
  rewrite <- (nibble_of_testbits (Z.shiftr n 4)),
          <- (nibble_of_testbits (Z.land n 15)).
  destruct rs; reflexivity.
Qed.

Lemma hd_busy_wait k : forall fuel s,
  ready s -> l_rs (pins s) = false -> busy s = k -> (k < fuel)%nat ->
  exists t, busy_wait D fuel s = Some (tt, settled s, t).
Proof.
  induction k as [|k IH]; intros fuel s (Hen & Hln & Hac) Hrs Hb Hlt;
    (destruct fuel as [|fuel]; [lia|]);
    rewrite busy_wait_S;
    rewrite (hd_read_value s Hen Hln), Hrs; cbv zeta;
    rewrite byte_reassembled by (apply status_range; assumption);
    rewrite status_busy_flag by assumption; rewrite Hb.
  - eexists. rewrite (hd_read_state s Hen Hln), Hrs, Hb. reflexivity.
  - rewrite (hd_read_state s Hen Hln), Hrs, Hb.
    destruct (IH fuel
                (mk (after_read (pins s)) false (high_latch s) (ac s)
                    (ddram s) (Nat.pred (S k)))) as [t Ht].
    + repeat split; cbn [pins ac low_next]; try reflexivity; apply Hac.
    + exact Hrs.
    + reflexivity.
    + lia.
    + rewrite Ht. eexists. reflexivity.
Qed.

Lemma hd_send_byte fuel rs n s :
  ready s -> (busy s < fuel)%nat -> 0 <= n < 256 ->
  exists t, lcd_send_byte D fuel rs n s = Some (tt, after_byte latency rs n s, t).
Proof.
  intros (Hen & Hln & Hac) Hlt Hn.
  rewrite lcd_send_byte_unfold.
  assert (Hs0 : dev_step D s (OutputBit LCD_RS_PIN false) =
                with_pins s (set_line (pins s) LCD_RS_PIN false)).
  { cbn [dev_step D device]. unfold step. rewrite Hen. reflexivity. }
  rewrite Hs0.
  destruct (@hd_busy_wait (busy s) fuel
              (with_pins s (set_line (pins s) LCD_RS_PIN false)))
    as [tp Hw]; try reflexivity; try assumption.
  { repeat split; cbn [with_pins pins low_next ac set_line l_en];
      assumption || apply Hac. }
  rewrite Hw. eexists. f_equal. f_equal. f_equal.
  rewrite hd_transfer by reflexivity. cbv zeta.
  rewrite <- (Z.land_assoc n). change (Z.land 0xf 0xf) with 0xf.
  rewrite byte_of_nibbles by assumption.
  reflexivity.
Qed.

Lemma after_byte_ready rs n s :
  decode n = SetDDRAMAddress \/ rs = true ->
  0 <= ac s < 128 ->
  ready (after_byte latency rs n s) /\ busy (after_byte latency rs n s) = latency /\
  l_rs (pins (after_byte latency rs n s)) = rs.
Proof.
  intros Hk Hac. unfold after_byte, ready. cbv zeta.
  destruct rs.
  - cbn [store pins ac low_next busy]. repeat split.
    + apply Z.mod_pos_bound; lia.
    + apply Z.mod_pos_bound; lia.
  - destruct Hk as [Hd|]; [|discriminate].
    unfold execute. rewrite Hd. cbn [pins ac low_next busy]. repeat split.
    + apply Z.land_nonneg. right. lia.
    + change 0x7f with (Z.ones 7). rewrite Z.land_ones by lia.
      apply Z.mod_pos_bound. simpl. lia.
Qed.

End Controller.

Section RoundTrip.

Variable latency : nat.

Local Abbreviation D := (HD44780.device latency).

Import HD44780.

Lemma after_byte_command a s :
  0 <= a < 128 ->
  ac (after_byte latency false (Z.lor 0x80 a) s) = a /\
  ddram (after_byte latency false (Z.lor 0x80 a) s) = ddram s.
Proof.
  intros Ha. unfold after_byte. cbv zeta. unfold execute.
  rewrite set_address_decode by lia. cbn [ac ddram].
  split; [apply set_address_field; assumption | reflexivity].
Qed.

Lemma after_byte_data c s :
  ac (after_byte latency true c s) = (ac s + 1) mod 128 /\
  ddram (after_byte latency true c s) =
  (fun k => if k =? ac s then c else ddram s k).
Proof. split; reflexivity. Qed.

Lemma valid_address x y :
  valid_position x y ->
  0 <= linear_address x y < 128 /\
  to_byte ((if negb (y =? 1) then LCD_LINE_TWO else 0) + to_byte (x - 1))
  = linear_address x y.
Proof.
  intros [Hy Hx]. unfold LCD_LINE_TWO in Hx.
  assert (Hr : 0 <= linear_address x y < 128).
  { unfold linear_address.
    destruct Hy as [-> | ->];
      [change (offset 1) with 0 | change (offset 2) with 64]; lia. }
  split; [exact Hr|].
  rewrite gotoxy_address_wrap. apply Z.mod_small.
  lia.
Qed.

Lemma hd_gotoxy fuel x y s :
  valid_position x y -> ready s -> (busy s < fuel)%nat ->
  exists t,
    lcd_gotoxy D fuel x y s =
    Some (tt, after_byte latency false (Z.lor 0x80 (linear_address x y)) s, t).
Proof.
  intros Hv Hr Hlt. destruct (valid_address Hv) as [Ha Hw].
  rewrite lcd_gotoxy_unfold, Hw.
  apply hd_send_byte; try assumption.
  apply lor_byte_range; lia.
Qed.

Lemma hd_putc fuel c s :
  printable c -> ready s -> (busy s < fuel)%nat ->
  exists t, lcd_putc D fuel c s = Some (tt, after_byte latency true c s, t).
Proof.
  intros Hc Hr Hlt. unfold printable in Hc. unfold lcd_putc.
  replace (c =? 12) with false by (symmetry; apply Z.eqb_neq; lia).
  replace (c =? 10) with false by (symmetry; apply Z.eqb_neq; lia).
  replace (c =? 8) with false by (symmetry; apply Z.eqb_neq; lia).
  apply hd_send_byte; try assumption. lia.
Qed.

(** [lcd_getc] returns the character the controller holds at the
    position. *)
Lemma hd_getc fuel x y s :
  valid_position x y -> ready s -> (busy s < fuel)%nat ->
  (latency < fuel)%nat ->
  0 <= ddram s (linear_address x y) < 256 ->
  exists s' t,
    lcd_getc D fuel x y s = Some (ddram s (linear_address x y), s', t).
Proof.
  intros Hv Hr Hlt Hlat Hch.
  destruct (valid_address Hv) as [Ha _].
  destruct (hd_gotoxy Hv Hr Hlt) as [t1 Hg].
  rewrite lcd_getc_unfold, Hg.
  set (s1 := after_byte latency false (Z.lor 0x80 (linear_address x y)) s).
  destruct (@after_byte_ready latency false
              (Z.lor 0x80 (linear_address x y)) s) as (Hr1 & Hb1 & Hrs1).
  { left. apply set_address_decode. lia. }
  { apply Hr. }
  fold s1 in Hr1, Hb1, Hrs1.
  destruct (@hd_busy_wait latency (busy s1) fuel s1) as [t2 Hw];
    try assumption; try reflexivity; try lia.
  rewrite Hw. cbv zeta.
  do 2 eexists. f_equal. f_equal. f_equal.
  destruct (@after_byte_command (linear_address x y) s Ha) as [Hac Hdd].
  fold s1 in Hac, Hdd.
  assert (Hd3 : dev_step D (settled s1) (OutputBit LCD_RS_PIN true) =
                with_pins (settled s1)
                          (set_line (pins (settled s1)) LCD_RS_PIN true))
    by reflexivity.
  rewrite Hd3.
  rewrite hd_read_value by reflexivity.
  cbn [with_pins settled pins l_rs set_line ac ddram]. cbv zeta.
  rewrite Hac, Hdd. apply byte_reassembled. assumption.
Qed.

End RoundTrip.

(** C5. Round trip through the character RAM.  Against the controller model,
    between two bytes, with a loop bound above the controller's latency: for
    every valid position and printable character [c], [lcd_gotoxy(x, y)]
    then [lcd_putc(c)] then [lcd_getc(x, y)] all return, the controller
    holds [c] at the linear address of the position, and [lcd_getc]
    returns [c]. *)
Theorem put_get_round_trip (latency fuel : nat) (s : HD44780.state)
        (x y c : BYTE) :
  HD44780.ready s -> (HD44780.busy s < fuel)%nat -> (latency < fuel)%nat ->
  valid_position x y -> printable c ->
  exists s1 t1 s2 t2 s3 t3,
    lcd_gotoxy (HD44780.device latency) fuel x y s = Some (tt, s1, t1) /\
    lcd_putc (HD44780.device latency) fuel c s1 = Some (tt, s2, t2) /\
    HD44780.ddram s2 (linear_address x y) = c /\
    lcd_getc (HD44780.device latency) fuel x y s2 = Some (c, s3, t3).
Proof.
  intros Hr Hb Hlat Hv Hc.
  destruct (valid_address Hv) as [Ha _].
  destruct (@hd_gotoxy latency fuel x y s Hv Hr Hb) as [t1 H1].
  set (s1 := HD44780.after_byte latency false
               (Z.lor 0x80 (linear_address x y)) s) in *.
  destruct (@after_byte_ready latency false
              (Z.lor 0x80 (linear_address x y)) s) as (Hr1 & Hb1 & _).
  { left. apply set_address_decode. lia. }
  { apply Hr. }
  fold s1 in Hr1, Hb1.
  destruct (@after_byte_command latency (linear_address x y) s Ha) as [Hac1 Hdd1].
  fold s1 in Hac1, Hdd1.
  destruct (@hd_putc latency fuel c s1 Hc Hr1) as [t2 H2]; [lia|].
  set (s2 := HD44780.after_byte latency true c s1) in *.
  destruct (@after_byte_ready latency true c s1) as (Hr2 & Hb2 & _).
  { right. reflexivity. }
  { apply Hr1. }
  fold s2 in Hr2, Hb2.
  assert (Hch : HD44780.ddram s2 (linear_address x y) = c).
  { unfold s2. rewrite (proj2 (@after_byte_data latency c s1)).
    rewrite Hac1, Z.eqb_refl. reflexivity. }
  destruct (@hd_getc latency fuel x y s2 Hv Hr2) as (s3 & t3 & H3); try lia.
  { rewrite Hch. unfold printable in Hc. lia. }
  rewrite Hch in H3.
  exists s1, t1, s2, t2, s3, t3. repeat split; assumption.
Qed.

Lemma put_get_round_trip_witness :
  exists s1 t1 s2 t2 s3 t3,
    lcd_gotoxy (HD44780.device 3) 4 5 2 HD44780.power_on = Some (tt, s1, t1) /\
    lcd_putc (HD44780.device 3) 4 65 s1 = Some (tt, s2, t2) /\
    HD44780.ddram s2 (linear_address 5 2) = 65 /\
    lcd_getc (HD44780.device 3) 4 5 2 s2 = Some (65, s3, t3).
Proof.
  apply (@put_get_round_trip 3 4 HD44780.power_on 5 2 65).
  - unfold HD44780.ready. simpl. lia.
  - simpl. lia.
  - lia.
  - unfold valid_position, LCD_LINE_TWO. lia.
  - unfold printable. lia.
Defined.

(** * Further properties of the display driver *)

Lemma lor_128_byte (b : Z) : 0 <= b < 256 -> Z.lor 0x80 b = 128 + b mod 128.
Proof.
  intros Hb.
  assert (Hall : forallb (fun n => Z.lor 0x80 (Z.of_nat n)
                                   =? 128 + Z.of_nat n mod 128)
                         (seq 0 256) = true) by (vm_compute; reflexivity).
  rewrite forallb_forall in Hall.
  specialize (Hall (Z.to_nat b)).
  rewrite Z2Nat.id in Hall by lia.
  apply Z.eqb_eq, Hall, in_seq. lia.
Qed.

Lemma written_delay l n : written l [DelayMs n] = [].
Proof. destruct l as [en rs rw d4 d5 d6 d7]; destruct en; reflexivity. Qed.

Section MoreDriver.

Variable dev : Device.
Variable fuel : nat.

Lemma lines_after_send_byte address n d d' t l :
  lcd_send_byte dev fuel address n d = Some (tt, d', t) ->
  lines_after l t =
  {| l_en := false; l_rs := address; l_rw := false;
     l_d4 := bit_test (Z.land n 0xf) 0; l_d5 := bit_test (Z.land n 0xf) 1;
     l_d6 := bit_test (Z.land n 0xf) 2; l_d7 := bit_test (Z.land n 0xf) 3 |}.
Proof.
  rewrite lcd_send_byte_unfold.
  destruct (busy_wait dev fuel _) as [[[u d1] tp]|] eqn:Hw; [|discriminate].
  intros H. injection H as _ <-.
  apply busy_wait_polls in Hw.
  change (OutputBit LCD_RS_PIN false :: tp ++ transfer_ops address n)
    with ([OutputBit LCD_RS_PIN false] ++ tp ++ transfer_ops address n).
  rewrite !lines_after_app.
  destruct (written_polls Hw (lines_after l [OutputBit LCD_RS_PIN false]))
    as [_ ->].
  reflexivity.
Qed.

Lemma drives_after_send_byte address n d d' t p init :
  lcd_send_byte dev fuel address n d = Some (tt, d', t) ->
  is_data_pin p = true -> drives_after p init t = true.
Proof.
  rewrite lcd_send_byte_unfold.
  destruct (busy_wait dev fuel _) as [[[u d1] tp]|] eqn:Hw; [|discriminate].
  intros H Hp. injection H as _ <-.
  apply busy_wait_polls in Hw.
  change (OutputBit LCD_RS_PIN false :: tp ++ transfer_ops address n)
    with ([OutputBit LCD_RS_PIN false] ++ tp ++ transfer_ops address n).
  rewrite !drives_after_app.
  assert (Hd : forall i, drives_after p i tp = true).
  { clear - Hw Hp. induction Hw as [x Hb|x tx x' Hb _ IH]; intros i.
    - apply drives_after_read; assumption.
    - rewrite drives_after_app. apply IH. }
  rewrite Hd. destruct p; try discriminate; reflexivity.
Qed.

Lemma written_putc c d d' t l :
  0 <= c < 256 ->
  lcd_putc dev fuel c d = Some (tt, d', t) ->
  exists h lo,
    written l t = [(fst (putc_byte c), h); (fst (putc_byte c), lo)] /\
    Z.lor (Z.shiftl h 4) lo = snd (putc_byte c).
Proof.
  intros Hc. unfold lcd_putc, putc_byte.
  destruct (c =? 12).
  - intros H. apply bind_Some in H.
    destruct H as ([] & d1 & t1 & t2 & H1 & H2 & ->).
    injection H2 as _ <-.
    rewrite written_app, written_delay, app_nil_r.
    rewrite (@written_send_byte dev fuel false 1 d d1 t1 l H1).
    do 2 eexists. split; reflexivity.
  - destruct (c =? 10).
    + intros H. unfold lcd_gotoxy in H.
      rewrite (@written_send_byte dev fuel false _ d d' t l H).
      do 2 eexists. split; reflexivity.
    + destruct (c =? 8).
      * intros H. rewrite (@written_send_byte dev fuel false _ d d' t l H).
        do 2 eexists. split; reflexivity.
      * intros H. rewrite (@written_send_byte dev fuel true c d d' t l H).
        do 2 eexists. split; [reflexivity|].
        cbn [fst snd]. apply byte_of_nibbles. assumption.
Qed.

End MoreDriver.

(** X1. [lcd_putc(c)] puts exactly one byte on the bus, whatever the lines
    were before: command 0x01 for form feed, command 0xC0 (the address of
    column 1, row 2) for newline, command 0x10 for backspace, and for every
    other character the character itself, to the data register.  Only form
    feed is followed by the 2 ms delay. *)
Theorem putc_dispatch (dev : Device) (fuel : nat) (c : BYTE)
        (d d' : dstate dev) (t : list bus_op) (l : lines) :
  0 <= c < 256 ->
  lcd_putc dev fuel c d = Some (tt, d', t) ->
  bytes_of (written l t) = [putc_byte c] /\
  (fst (putc_byte c) = true <-> c <> 12 /\ c <> 10 /\ c <> 8) /\
  (In (DelayMs 2) t <-> c = 12).
Proof.
  intros Hc H. split; [|split].
  - destruct (@written_putc dev fuel c d d' t l Hc H) as (h & lo & -> & Hb).
    cbn [bytes_of]. rewrite Hb. destruct (putc_byte c); reflexivity.
  - unfold putc_byte.
    destruct (Z.eqb_spec c 12); [cbn [fst]; split; [discriminate|lia]|].
    destruct (Z.eqb_spec c 10); [cbn [fst]; split; [discriminate|lia]|].
    destruct (Z.eqb_spec c 8); [cbn [fst]; split; [discriminate|lia]|].
    cbn [fst]. split; auto.
  - assert (Hno : forall a n x x' tx,
               lcd_send_byte dev fuel a n x = Some (tt, x', tx) ->
               ~ In (DelayMs 2) tx).
    { intros a n x x' tx Hs Hin. rewrite lcd_send_byte_unfold in Hs.
      destruct (busy_wait dev fuel _) as [[[u d1] tp]|] eqn:Hw; [|discriminate].
      injection Hs as _ <-. apply busy_wait_polls in Hw.
      destruct Hin as [Hin|Hin]; [discriminate|].
      apply in_app_or in Hin. destruct Hin as [Hin|Hin].
      - clear - Hw Hin. induction Hw as [y Hb|y ty y' Hb _ IH].
        + destruct (read_trace_shape dev y)
            as (h4 & h5 & h6 & h7 & l4 & l5 & l6 & l7 & Ht & _).
          rewrite Ht in Hin. cbn in Hin.
          repeat (destruct Hin as [Hin|Hin]; [discriminate|]). exact Hin.
        + apply in_app_or in Hin. destruct Hin as [Hin|Hin]; [|auto].
          destruct (read_trace_shape dev y)
            as (h4 & h5 & h6 & h7 & l4 & l5 & l6 & l7 & Ht & _).
          rewrite Ht in Hin. cbn in Hin.
          repeat (destruct Hin as [Hin|Hin]; [discriminate|]). exact Hin.
      - cbn in Hin.
        repeat (destruct Hin as [Hin|Hin]; [discriminate|]). exact Hin. }
    unfold lcd_putc in H.
    destruct (Z.eqb_spec c 12) as [->|Hn12].
    + apply bind_Some in H. destruct H as ([] & d1 & t1 & t2 & H1 & H2 & ->).
      injection H2 as _ <-. split; [reflexivity|].
      intros _. apply in_or_app. right. left. reflexivity.
    + split; [|contradiction]. intros Hin. exfalso.
      destruct (c =? 10); [|destruct (c =? 8)];
        eapply Hno; eassumption.
Qed.

Lemma putc_dispatch_witness :
  exists t,
    lcd_putc idle_device 1 10 tt = Some (tt, tt, t) /\
    bytes_of (written idle_lines t) = [(false, 0xC0)].
Proof.
  eexists. split; [reflexivity|].
  apply (proj1 (@putc_dispatch idle_device 1 10 tt tt _ idle_lines
                  ltac:(lia) eq_refl)).
Defined.

(** X2. [lcd_read_byte] samples each data line twice, [LCD_DATA4] to
    [LCD_DATA7] and again [LCD_DATA4] to [LCD_DATA7], and returns the byte
    whose bits 4..7 are the first four levels and bits 0..3 the last four:
    bit 7, the busy flag, is the level [LCD_DATA7] had in the first Enable
    pulse.  The result is always in 0..255. *)
Theorem read_byte_bits (dev : Device) (d : dstate dev) :
  exists v d' t h4 h5 h6 h7 l4 l5 l6 l7,
    lcd_read_byte dev d = Some (v, d', t) /\
    samples t =
    [(LCD_DATA4, h4); (LCD_DATA5, h5); (LCD_DATA6, h6); (LCD_DATA7, h7);
     (LCD_DATA4, l4); (LCD_DATA5, l5); (LCD_DATA6, l6); (LCD_DATA7, l7)] /\
    0 <= v < 256 /\
    map (bit_test v) [0; 1; 2; 3; 4; 5; 6; 7] = [l4; l5; l6; l7; h4; h5; h6; h7].
Proof.
  destruct (read_trace_shape dev d)
    as (h4 & h5 & h6 & h7 & l4 & l5 & l6 & l7 & Ht & Hv).
  exists (read_value dev d), (read_state dev d), (read_trace dev d),
         h4, h5, h6, h7, l4, l5, l6, l7.
  split; [apply lcd_read_byte_run|].
  rewrite Ht, Hv. split; [reflexivity|].
  destruct h4, h5, h6, h7, l4, l5, l6, l7;
    (split; [vm_compute; split; congruence | reflexivity]).
Qed.

(** X3. [lcd_send_nibble(n)] uses only bits 0..3 of [n]: it does the same
    for [n] and [n & 0xf].  It pulses Enable once, so with read/write low a
    monitor sees one nibble, [n & 0xf], and with read/write high none; the
    data lines are left holding [n & 0xf] and Enable is left low. *)
Theorem send_nibble_low_bits (dev : Device) (n : BYTE) (d : dstate dev)
        (l : lines) :
  lcd_send_nibble dev (Z.land n 0xf) d = lcd_send_nibble dev n d /\
  exists d' t,
    lcd_send_nibble dev n d = Some (tt, d', t) /\
    written l t = (if l_rw l then [] else [(l_rs l, Z.land n 0xf)]) /\
    nibble_on (lines_after l t) = Z.land n 0xf /\
    l_en (lines_after l t) = false.
Proof.
  split.
  - rewrite !lcd_send_nibble_run. unfold nibble_ops, bit_test.
    rewrite !Z.land_spec. change 0xf with (Z.ones 4).
    rewrite !Z.ones_spec_low by lia. rewrite !andb_true_r. reflexivity.
  - exists (run_ops dev d (nibble_ops n)), (nibble_ops n).
    split; [apply lcd_send_nibble_run|].
    destruct l as [en rs rw d4 d5 d6 d7].
    repeat split.
    + destruct rw, en; cbn -[nibble_of_bits Z.land bit_test];
        unfold nibble_on; cbn [l_d4 l_d5 l_d6 l_d7];
        try rewrite nibble_of_testbits; reflexivity.
    + unfold nibble_on. cbn -[nibble_of_bits Z.land bit_test].
      apply nibble_of_testbits.
Qed.

(** X4. When [lcd_send_byte(address, n)] returns, whatever the lines were
    before: Enable is low, read/write is low, register-select is at
    [address], the data lines hold the low nibble of [n], and the four data
    lines are outputs again. *)
Theorem send_byte_leaves_lines (dev : Device) (fuel : nat) (address : bool)
        (n : BYTE) (d d' : dstate dev) (t : list bus_op) (l : lines) :
  lcd_send_byte dev fuel address n d = Some (tt, d', t) ->
  l_en (lines_after l t) = false /\
  l_rw (lines_after l t) = false /\
  l_rs (lines_after l t) = address /\
  nibble_on (lines_after l t) = Z.land n 0xf /\
  forall p init, is_data_pin p = true -> drives_after p init t = true.
Proof.
  intros H. rewrite (@lines_after_send_byte dev fuel address n d d' t l H).
  repeat split.
  - unfold nibble_on. cbn [l_d4 l_d5 l_d6 l_d7].
    rewrite nibble_of_testbits, <- Z.land_assoc. reflexivity.
  - intros p init Hp. eapply drives_after_send_byte; eassumption.
Qed.

Lemma send_byte_leaves_lines_witness :
  exists d' t,
    lcd_send_byte (HD44780.device 2) 3 true 0x41 HD44780.settling
    = Some (tt, d', t) /\
    l_rs (lines_after idle_lines t) = true /\
    nibble_on (lines_after idle_lines t) = 1.
Proof.
  do 2 eexists. split; [vm_compute; reflexivity|].
  split.
  - refine (proj1 (proj2 (proj2
              (@send_byte_leaves_lines (HD44780.device 2) 3 true 0x41
                 HD44780.settling _ _ idle_lines _)))).
    vm_compute. reflexivity.
  - refine (proj1 (proj2 (proj2 (proj2
              (@send_byte_leaves_lines (HD44780.device 2) 3 true 0x41
                 HD44780.settling _ _ idle_lines _))))).
    vm_compute. reflexivity.
Defined.

Lemma samples_app (t1 t2 : list bus_op) :
  samples (t1 ++ t2) = samples t1 ++ samples t2.
Proof. apply flat_map_app. Qed.

Lemma written_rs l v : l_en l = false -> written l [OutputBit LCD_RS_PIN v] = [].
Proof. destruct l as [en rs rw d4 d5 d6 d7]. cbn [l_en]. intros ->. reflexivity. Qed.

(** X5. [lcd_getc(x, y)] reads without writing the character RAM: the only
    byte it writes is the set-address command, to the command register.  It
    returns a value in 0..255 whose bits are the last eight levels it
    sampled, and it leaves register-select low, read/write high and Enable
    low. *)
Theorem getc_bus_effect (dev : Device) (fuel : nat) (x y v : BYTE)
        (d d' : dstate dev) (t : list bus_op) (l : lines) :
  lcd_getc dev fuel x y d = Some (v, d', t) ->
  bytes_of (written l t) =
  [(false, Z.lor 0x80 ((offset y + x - 1) mod 256))] /\
  0 <= v < 256 /\
  (exists earlier h4 h5 h6 h7 l4 l5 l6 l7,
      samples t = earlier ++
        [(LCD_DATA4, h4); (LCD_DATA5, h5); (LCD_DATA6, h6); (LCD_DATA7, h7);
         (LCD_DATA4, l4); (LCD_DATA5, l5); (LCD_DATA6, l6); (LCD_DATA7, l7)] /\
      map (bit_test v) [0; 1; 2; 3; 4; 5; 6; 7] =
      [l4; l5; l6; l7; h4; h5; h6; h7]) /\
  l_rs (lines_after l t) = false /\
  l_rw (lines_after l t) = true /\
  l_en (lines_after l t) = false.
Proof.
  intros H. rewrite lcd_getc_unfold in H.
  destruct (lcd_gotoxy dev fuel x y d) as [[[[] d1] t1]|] eqn:Hg; [|discriminate].
  destruct (busy_wait dev fuel d1) as [[[u2 d2] t2]|] eqn:Hw; [|discriminate].
  cbv zeta in H.
  set (d3 := dev_step dev d2 (OutputBit LCD_RS_PIN true)) in H.
  assert (Hv : v = read_value dev d3) by congruence.
  assert (Ht : t = t1 ++ t2 ++ [OutputBit LCD_RS_PIN true]
                     ++ read_trace dev d3 ++ [OutputBit LCD_RS_PIN false])
    by congruence.
  clear H. apply busy_wait_polls in Hw.
  pose proof (@bytes_of_gotoxy dev fuel x y d d1 t1 l Hg) as Hb.
  unfold lcd_gotoxy in Hg.
  pose proof (@lines_after_send_byte dev fuel false _ d d1 t1 l Hg) as Hl1.
  destruct (written_polls Hw (lines_after l t1)) as [Hw2 Hl2].
  destruct (read_byte_bits dev d3)
    as (v' & d'' & t' & h4 & h5 & h6 & h7 & l4 & l5 & l6 & l7
        & Hr & Hs & Hrange & Hbits).
  rewrite lcd_read_byte_run in Hr.
  assert (v' = read_value dev d3) by congruence.
  assert (t' = read_trace dev d3) by congruence.
  subst v' t' v t.
  split; [|split; [exact Hrange|split; [|]]].
  - rewrite !written_app, Hw2, Hl2.
    rewrite written_rs by reflexivity.
    rewrite (proj1 (written_read_trace dev _ d3)).
    rewrite (proj2 (written_read_trace dev _ d3)).
    rewrite written_rs by reflexivity.
    rewrite !app_nil_r. exact Hb.
  - exists (samples t1 ++ samples t2), h4, h5, h6, h7, l4, l5, l6, l7.
    split; [|exact Hbits].
    rewrite !samples_app, Hs. cbn [samples flat_map app].
    apply app_assoc.
  - rewrite !lines_after_app, Hl2, Hl1.
    rewrite (proj2 (written_read_trace dev _ d3)). repeat split.
Qed.

Lemma getc_bus_effect_witness :
  exists v d' t,
    lcd_getc (HD44780.device 1) 2 3 2 HD44780.power_on = Some (v, d', t) /\
    bytes_of (written idle_lines t) = [(false, 0xC2)].
Proof.
  do 3 eexists. split; [vm_compute; reflexivity|].
  refine (proj1 (@getc_bus_effect (HD44780.device 1) 2 3 2 _
                   HD44780.power_on _ _ idle_lines _)).
  vm_compute. reflexivity.
Defined.

(** X6. The command byte of [lcd_gotoxy(x, y)] is always
    [0x80 + (offset(y) + x - 1) mod 128]: only seven bits of the address
    reach the bus.  Hence column [x + 64] of row 1 is the same call as column
    [x] of row 2, column [x + 128] is the same call as column [x], and
    column 0 of row 2 is address [0x3F]. *)
Theorem gotoxy_seven_bits (dev : Device) (fuel : nat) (x y : BYTE)
        (d : dstate dev) :
  (forall d' t l,
      lcd_gotoxy dev fuel x y d = Some (tt, d', t) ->
      bytes_of (written l t) = [(false, 0x80 + (offset y + x - 1) mod 128)]) /\
  lcd_gotoxy dev fuel (x + 64) 1 d = lcd_gotoxy dev fuel x 2 d /\
  lcd_gotoxy dev fuel (x + 128) y d = lcd_gotoxy dev fuel x y d /\
  lcd_gotoxy dev fuel 0 2 d = lcd_send_byte dev fuel false (0x80 + 0x3F) d.
Proof.
  assert (Hbyte : forall a b,
             Z.lor 0x80 ((offset b + a - 1) mod 256)
             = 0x80 + (offset b + a - 1) mod 128).
  { intros a b. rewrite lor_128_byte by (apply Z.mod_pos_bound; lia).
    rewrite Z.mod_mod_divide by (exists 2; reflexivity).
    reflexivity. }
  split; [|split; [|split]].
  - intros d' t l H.
    rewrite (@bytes_of_gotoxy dev fuel x y d d' t l H), Hbyte. reflexivity.
  - rewrite !lcd_gotoxy_unfold, !gotoxy_address_wrap, !Hbyte.
    do 2 f_equal. change (offset 1) with 0. change (offset 2) with 64.
    f_equal. lia.
  - rewrite !lcd_gotoxy_unfold, !gotoxy_address_wrap, !Hbyte.
    do 2 f_equal.
    replace (offset y + (x + 128) - 1) with (offset y + x - 1 + 1 * 128) by lia.
    apply Z.mod_add. lia.
  - reflexivity.
Qed.

Lemma gotoxy_seven_bits_witness :
  exists t,
    lcd_gotoxy idle_device 1 70 1 tt = Some (tt, tt, t) /\
    bytes_of (written idle_lines t) = [(false, 0xC5)].
Proof.
  eexists. split; [reflexivity|].
  apply (proj1 (@gotoxy_seven_bits idle_device 1 70 1 tt) tt _ idle_lines eq_refl).
Defined.

(** X7. [printf(LCD_PUTC, s)] puts one byte on the bus per character of
    [s], in order, each as [lcd_putc] alone would: nothing is dropped,
    merged or reordered, whatever the device answers. *)
Theorem printf_bytes (dev : Device) (fuel : nat) (s : list BYTE) :
  Forall (fun c => 0 <= c < 256) s ->
  forall (d d' : dstate dev) (t : list bus_op) (l : lines),
    printf_LCD_PUTC dev fuel s d = Some (tt, d', t) ->
    bytes_of (written l t) = map putc_byte s.
Proof.
  induction 1 as [|c s Hc _ IH]; intros d d' t l H.
  - injection H as _ <-. reflexivity.
  - cbn [printf_LCD_PUTC] in H. apply bind_Some in H.
    destruct H as ([] & d1 & t1 & t2 & H1 & H2 & ->).
    rewrite written_app.
    destruct (@written_putc dev fuel c d d1 t1 l Hc H1) as (h & lo & -> & Hb).
    cbn [app bytes_of map]. rewrite Hb.
    rewrite (IH d1 d' t2 _ H2).
    destruct (putc_byte c); reflexivity.
Qed.

Lemma printf_bytes_witness :
  exists t,
    printf_LCD_PUTC idle_device 1 Text.done tt = Some (tt, tt, t) /\
    bytes_of (written idle_lines t) = map putc_byte Text.done.
Proof.
  eexists. split; [vm_compute; reflexivity|].
  refine (@printf_bytes idle_device 1 Text.done _ tt tt _ idle_lines _).
  - repeat constructor; lia.
  - vm_compute. reflexivity.
Defined.

(** * Properties of the control loop *)

Lemma pin_writes_app p (t1 t2 : list Firmware.event) :
  Firmware.pin_writes p (t1 ++ t2)
  = Firmware.pin_writes p t1 ++ Firmware.pin_writes p t2.
Proof. apply flat_map_app. Qed.

Lemma reader_calls_app (t1 t2 : list Firmware.event) :
  Firmware.reader_calls (t1 ++ t2)
  = Firmware.reader_calls t1 ++ Firmware.reader_calls t2.
Proof. apply flat_map_app. Qed.

Lemma waited_ms_app (t1 t2 : list Firmware.event) :
  Firmware.waited_ms (t1 ++ t2)
  = Firmware.waited_ms t1 + Firmware.waited_ms t2.
Proof.
  induction t1 as [|e t1 IH]; [reflexivity|].
  cbn [app Firmware.waited_ms fold_right].
  fold (Firmware.waited_ms (t1 ++ t2)). fold (Firmware.waited_ms t1).
  rewrite IH. destruct e as [[]| | |]; lia.
Qed.

Lemma pin_writes_bus p (t : list bus_op) :
  Firmware.pin_writes p (map Firmware.Bus t) = [].
Proof. induction t as [|op t IH]; [reflexivity | exact IH]. Qed.

Lemma reader_calls_bus (t : list bus_op) :
  Firmware.reader_calls (map Firmware.Bus t) = [].
Proof. induction t as [|op t IH]; [reflexivity | exact IH]. Qed.

Lemma upto_length (n : Z) : length (Firmware.upto n) = Z.to_nat n.
Proof. unfold Firmware.upto. rewrite length_map, length_seq. reflexivity. Qed.

Section FirmwareRuns.

Variable dev : Device.

Lemma pbind_Some A B (m : Firmware.P dev A) (f : A -> Firmware.P dev B)
      d g b d2 g2 t :
  Firmware.pbind m f d g = Some (b, d2, g2, t) ->
  exists a d1 g1 t1 t2,
    m d g = Some (a, d1, g1, t1) /\ f a d1 g1 = Some (b, d2, g2, t2) /\
    t = t1 ++ t2.
Proof.
  unfold Firmware.pbind.
  destruct (m d g) as [[[[a d1] g1] t1]|] eqn:Hm; [|discriminate].
  destruct (f a d1 g1) as [[[[b' d2'] g2'] t2]|] eqn:Hf; [|discriminate].
  intros H. injection H as <- <- <- <-.
  exists a, d1, g1, t1, t2. repeat split; assumption || reflexivity.
Qed.

Lemma lift_Some A (m : M dev A) d g a d1 g1 t :
  Firmware.lift m d g = Some (a, d1, g1, t) ->
  g1 = g /\ exists t0, m d = Some (a, d1, t0) /\ t = map Firmware.Bus t0.
Proof.
  unfold Firmware.lift. destruct (m d) as [[[a0 d0] t0]|]; [|discriminate].
  intros H. injection H as <- <- <- <-. split; [reflexivity|].
  exists t0. split; reflexivity.
Qed.

(** A loop whose body always returns, keeps the globals and does the same
    events each time. *)
Lemma pfor_uniform (body : Z -> Firmware.P dev unit) (tr : list Firmware.event) :
  (forall i d g, exists d', body i d g = Some (tt, d', g, tr)) ->
  forall range d g,
  exists d',
    Firmware.pfor_ range body d g
    = Some (tt, d', g, concat (repeat tr (length range))).
Proof.
  intros Hb range. induction range as [|i range IH]; intros d g.
  - exists d. reflexivity.
  - destruct (Hb i d g) as [d1 H1]. destruct (IH d1 g) as [d2 H2].
    exists d2. cbn [Firmware.pfor_]. unfold Firmware.pbind.
    rewrite H1, H2. reflexivity.
Qed.

Lemma bipbip_run hoi tieng d g :
  exists d',
    Firmware.bipbip dev hoi tieng d g
    = Some (tt, d', g, Firmware.bipbip_events hoi tieng).
Proof.
  unfold Firmware.bipbip, Firmware.bipbip_events.
  rewrite <- (upto_length hoi), <- (upto_length tieng).
  apply pfor_uniform. intros _ d0 g0.
  destruct (@pfor_uniform
              (fun _ => Firmware.pbind (Firmware.output_high dev Firmware.PIN_C0)
                          (fun _ => Firmware.delay_ms dev 1))
              [Firmware.OutputHigh Firmware.PIN_C0; Firmware.Bus (DelayMs 1)])
    with (range := Firmware.upto tieng) (d := d0) (g := g0) as [d1 H1].
  { intros i x y. eexists. reflexivity. }
  eexists. unfold Firmware.pbind at 1. rewrite H1. reflexivity.
Qed.

End FirmwareRuns.

Lemma beeps_events (hoi tieng : Z) :
  Firmware.pin_writes Firmware.PIN_C0 (Firmware.bipbip_events hoi tieng)
  = Firmware.beeps hoi tieng /\
  Firmware.pin_writes Firmware.PIN_C1 (Firmware.bipbip_events hoi tieng) = [] /\
  Firmware.reader_calls (Firmware.bipbip_events hoi tieng) = [] /\
  Firmware.waited_ms (Firmware.bipbip_events hoi tieng)
  = Z.of_nat (Z.to_nat hoi) * (Z.of_nat (Z.to_nat tieng) + 10).
Proof.
  unfold Firmware.bipbip_events, Firmware.beeps.
  set (inner := concat (repeat [Firmware.OutputHigh Firmware.PIN_C0;
                                Firmware.Bus (DelayMs 1)] (Z.to_nat tieng))).
  assert (Hin : Firmware.pin_writes Firmware.PIN_C0 inner
                = repeat true (Z.to_nat tieng) /\
                Firmware.pin_writes Firmware.PIN_C1 inner = [] /\
                Firmware.reader_calls inner = [] /\
                Firmware.waited_ms inner = Z.of_nat (Z.to_nat tieng)).
  { unfold inner. induction (Z.to_nat tieng) as [|k (I0 & I1 & I2 & I3)].
    - repeat split.
    - cbn [repeat concat]. rewrite pin_writes_app, pin_writes_app,
        reader_calls_app, waited_ms_app, I0, I1, I2, I3.
      repeat split. cbn [Firmware.waited_ms fold_right]. lia. }
  destruct Hin as (I0 & I1 & I2 & I3).
  induction (Z.to_nat hoi) as [|k (J0 & J1 & J2 & J3)].
  - repeat split.
  - cbn [repeat concat].
    rewrite !pin_writes_app, !reader_calls_app, !waited_ms_app.
    rewrite J0, J1, J2, J3, I0, I1, I2, I3.
    repeat split.
    cbn [Firmware.waited_ms fold_right]. lia.
Qed.

(** X8. [bipbip(hoi, tieng)] always returns and keeps the globals.  On the
    buzzer pin it writes [hoi] times [tieng] highs followed by one low, so
    nothing at all for [hoi = 0] and only lows for [tieng = 0]; it never
    touches the lock pin or the reader, and it spends
    [hoi * (tieng + 10)] ms in [delay_ms]. *)
Theorem bipbip_pattern (dev : Device) (hoi tieng : BYTE) (d : dstate dev)
        (g : Firmware.globals) :
  0 <= hoi -> 0 <= tieng ->
  exists d' t,
    Firmware.bipbip dev hoi tieng d g = Some (tt, d', g, t) /\
    Firmware.pin_writes Firmware.PIN_C0 t = Firmware.beeps hoi tieng /\
    Firmware.pin_writes Firmware.PIN_C1 t = [] /\
    Firmware.reader_calls t = [] /\
    Firmware.waited_ms t = hoi * (tieng + 10) /\
    (hoi = 0 -> t = []) /\
    (tieng = 0 ->
     Firmware.pin_writes Firmware.PIN_C0 t = repeat false (Z.to_nat hoi)).
Proof.
  intros Hh Ht. destruct (bipbip_run dev hoi tieng d g) as [d' H].
  exists d', (Firmware.bipbip_events hoi tieng).
  destruct (beeps_events hoi tieng) as (B0 & B1 & B2 & B3).
  split; [exact H|]. split; [exact B0|]. split; [exact B1|].
  split; [exact B2|]. split; [rewrite B3, !Z2Nat.id by lia; reflexivity|].
  split.
  - intros ->. reflexivity.
  - intros ->. rewrite B0. unfold Firmware.beeps. cbn [Z.to_nat repeat app].
    generalize (Z.to_nat hoi). intros k.
    induction k as [|k IH]; [reflexivity|].
    cbn [repeat concat app]. rewrite IH. reflexivity.
Qed.

Lemma bipbip_pattern_witness :
  exists d' t,
    Firmware.bipbip idle_device 2 3 tt Firmware.reset_globals
    = Some (tt, d', Firmware.reset_globals, t) /\
    Firmware.pin_writes Firmware.PIN_C0 t
    = [true; true; true; false; true; true; true; false] /\
    Firmware.waited_ms t = 26.
Proof.
  destruct (@bipbip_pattern idle_device 2 3 tt Firmware.reset_globals
              ltac:(lia) ltac:(lia))
    as (d' & t & H & H0 & _ & _ & H3 & _).
  exists d', t. split; [exact H|]. split; [exact H0 | exact H3].
Defined.

Lemma QUET_THE_fst_indep (DATA UID : list BYTE) (b : bool) :
  fst (Card.QUET_THE DATA UID b) = fst (Card.QUET_THE DATA UID false).
Proof.
  unfold Card.QUET_THE. cbn [fst].
  pose proof (QUET_THE_loop_four DATA UID b) as H1.
  pose proof (QUET_THE_loop_four DATA UID false) as H2.
  destruct (Card.QUET_THE_loop 4 0 DATA UID b),
           (Card.QUET_THE_loop 4 0 DATA UID false); try reflexivity.
  - symmetry. apply H2, H1. reflexivity.
  - apply H1, H2. reflexivity.
Qed.

Lemma on_list_authorised (UID : list BYTE) :
  Firmware.on_list UID = true <-> Firmware.authorised UID.
Proof.
  unfold Firmware.on_list, Firmware.authorised, Firmware.matches.
  rewrite orb_true_iff.
  unfold Card.QUET_THE. cbn [fst]. rewrite !QUET_THE_loop_four. reflexivity.
Qed.

Lemma QUET_THE_run (dev : Device) (DATA UID : list BYTE) (d : dstate dev)
      (g : Firmware.globals) :
  Firmware.QUET_THE dev DATA UID d g =
  Some (fst (Card.QUET_THE DATA UID (Firmware.THE_1 g)), d,
        {| Firmware.THE_1 := fst (Card.QUET_THE DATA UID (Firmware.THE_1 g));
           Firmware.TAM := Firmware.TAM g;
           Firmware.tt_1 := Firmware.tt_1 g;
           Firmware.tt_2 := Firmware.tt_2 g |}, []).
Proof. reflexivity. Qed.

Lemma run_inj (A D G T : Type) (a a' : A) (d d' : D) (g g' : G) (t t' : T) :
  Some (a, d, g, t) = Some (a', d', g', t') ->
  a = a' /\ d = d' /\ g = g' /\ t = t'.
Proof. intros H. injection H. auto. Qed.

Ltac pstep :=
  match goal with
  | H : Firmware.pbind _ _ _ _ = Some _ |- _ =>
      let a := fresh "a" in
      let d1 := fresh "d" in
      let g1 := fresh "g" in
      let t1 := fresh "t" in
      let t2 := fresh "t" in
      let H1 := fresh "H" in
      apply pbind_Some in H;
      destruct H as (a & d1 & g1 & t1 & t2 & H1 & H & ->);
      cbv beta in H
  | H : Firmware.lift _ _ _ = Some _ |- _ =>
      let t0 := fresh "t" in
      apply lift_Some in H; destruct H as (-> & t0 & H & ->)
  | H : Firmware.lcd_gotoxy _ _ _ _ _ _ = Some _ |- _ =>
      unfold Firmware.lcd_gotoxy in H
  | H : Firmware.printf _ _ _ _ _ = Some _ |- _ =>
      unfold Firmware.printf in H
  | H : Firmware.delay_ms _ _ _ _ = Some _ |- _ =>
      unfold Firmware.delay_ms in H
  | H : Firmware.bipbip ?dv ?h ?n ?x ?y = Some _ |- _ =>
      let d2 := fresh "d" in
      let Hb := fresh "H" in
      destruct (bipbip_run dv h n x y) as [d2 Hb];
      rewrite Hb in H; clear Hb; apply run_inj in H; destruct H as (? & ? & ? & ?); subst
  | H : Firmware.QUET_THE _ _ _ _ _ = Some _ |- _ =>
      rewrite QUET_THE_run in H; apply run_inj in H; destruct H as (? & ? & ? & ?); subst
  | H : Firmware.get _ _ _ = Some _ |- _ =>
      cbv [Firmware.get] in H; apply run_inj in H; destruct H as (? & ? & ? & ?); subst
  | H : Firmware.put _ _ _ _ = Some _ |- _ =>
      cbv [Firmware.put] in H; apply run_inj in H; destruct H as (? & ? & ? & ?); subst
  | H : Firmware.reader _ _ _ _ = Some _ |- _ =>
      cbv [Firmware.reader Firmware.out] in H; apply run_inj in H; destruct H as (? & ? & ? & ?); subst
  | H : Firmware.output_high _ _ _ _ = Some _ |- _ =>
      cbv [Firmware.output_high Firmware.out] in H; apply run_inj in H; destruct H as (? & ? & ? & ?); subst
  | H : Firmware.output_low _ _ _ _ = Some _ |- _ =>
      cbv [Firmware.output_low Firmware.out] in H; apply run_inj in H; destruct H as (? & ? & ? & ?); subst
  | H : Firmware.pret _ _ _ _ = Some _ |- _ =>
      cbv [Firmware.pret] in H; apply run_inj in H; destruct H as (? & ? & ? & ?); subst
  end.

Ltac prun :=
  repeat (pstep;
          cbn [Firmware.TAM Firmware.THE_1 Firmware.tt_1 Firmware.tt_2
               Firmware.card Firmware.serial negb] in * ).

Ltac norm_quet :=
  repeat match goal with
    | H : context [fst (Card.QUET_THE ?D ?U ?b)] |- _ =>
        lazymatch b with
        | false => fail
        | _ => rewrite (QUET_THE_fst_indep D U b) in H
        end
    | |- context [fst (Card.QUET_THE ?D ?U ?b)] =>
        lazymatch b with
        | false => fail
        | _ => rewrite (QUET_THE_fst_indep D U b)
        end
    end.

Ltac observe :=
  repeat rewrite pin_writes_app;
  repeat rewrite reader_calls_app;
  repeat rewrite pin_writes_bus;
  repeat rewrite reader_calls_bus;
  repeat rewrite (proj1 (beeps_events _ _));
  repeat rewrite (proj1 (proj2 (beeps_events _ _)));
  repeat rewrite (proj1 (proj2 (proj2 (beeps_events _ _))));
  cbn [Firmware.pin_writes Firmware.reader_calls flat_map
       Firmware.port_pin_eqb app];
  repeat rewrite app_nil_r.

Section Iteration.

Variable dev : Device.
Variable fuel : nat.

Lemma door_obs name d g d' g' t :
  Firmware.door dev fuel name d g = Some (tt, d', g', t) ->
  Firmware.pin_writes Firmware.PIN_C1 t = [negb (Firmware.TAM g)] /\
  Firmware.pin_writes Firmware.PIN_C0 t = Firmware.beeps 3 3 /\
  Firmware.reader_calls t = [] /\
  g' = {| Firmware.THE_1 := Firmware.THE_1 g;
          Firmware.TAM := negb (Firmware.TAM g);
          Firmware.tt_1 := Firmware.tt_1 g;
          Firmware.tt_2 := Firmware.tt_2 g |}.
Proof.
  unfold Firmware.door. intros H.
  destruct g as [the tam t1 t2]. destruct tam;
    prun; observe; repeat split.
Qed.

Lemma main_iteration_obs s d g d' g' t :
  Firmware.main_iteration dev fuel s d g = Some (tt, d', g', t) ->
  Firmware.TAM g'
  = (if Firmware.is_authorised s then negb (Firmware.TAM g)
     else Firmware.TAM g) /\
  Firmware.pin_writes Firmware.PIN_C1 t
  = (if Firmware.is_authorised s then [negb (Firmware.TAM g)] else []) /\
  Firmware.pin_writes Firmware.PIN_C0 t
  = (if Firmware.card s
     then match Firmware.serial s with
          | Some UID => if Firmware.on_list UID then Firmware.beeps 3 3
                        else Firmware.beeps 10 10
          | None => []
          end
     else []) /\
  Firmware.reader_calls t
  = (if Firmware.card s
     then [Firmware.MFRC522_isCard; Firmware.MFRC522_ReadCardSerial;
           Firmware.MFRC522_Halt]
     else [Firmware.MFRC522_isCard]) /\
  match Firmware.serial s with
  | Some UID =>
      if Firmware.card s then
        Firmware.tt_1 g' = b2z (fst (Card.QUET_THE Card.DATA_TRUNG UID false)) /\
        Firmware.tt_2 g' = b2z (fst (Card.QUET_THE Card.DATA_HUY UID false)) /\
        Firmware.THE_1 g' = fst (Card.QUET_THE Card.DATA_HUY UID false)
      else g' = g
  | None => g' = g
  end.
Proof.
  destruct s as [c ser]. unfold Firmware.main_iteration, Firmware.is_authorised.
  cbn [Firmware.card Firmware.serial]. intros H.
  destruct c; destruct ser as [UID|]; cbn [andb].
  - unfold Firmware.on_list. prun.
    cbn [Firmware.tt_1 Firmware.tt_2 Firmware.THE_1 Firmware.TAM] in *.
    norm_quet.
    destruct (fst (Card.QUET_THE Card.DATA_TRUNG UID false)) eqn:E1;
      [|destruct (fst (Card.QUET_THE Card.DATA_HUY UID false)) eqn:E2];
      cbn [b2z Z.eqb Pos.eqb orb] in *.
    + match goal with
      | Hd : Firmware.door _ _ _ _ _ = Some (?u, _, _, _) |- _ =>
          destruct u; apply door_obs in Hd; destruct Hd as (O1 & O0 & OR & ->)
      end.
      observe. rewrite O1, O0, OR.
      cbn [Firmware.TAM Firmware.tt_1 Firmware.tt_2 Firmware.THE_1].
      repeat split.
    + match goal with
      | Hd : Firmware.door _ _ _ _ _ = Some (?u, _, _, _) |- _ =>
          destruct u; apply door_obs in Hd; destruct Hd as (O1 & O0 & OR & ->)
      end.
      observe. rewrite O1, O0, OR.
      cbn [Firmware.TAM Firmware.tt_1 Firmware.tt_2 Firmware.THE_1].
      repeat split.
    + prun. observe.
      cbn [Firmware.TAM Firmware.tt_1 Firmware.tt_2 Firmware.THE_1].
      repeat split.
  - prun. observe. repeat split.
  - prun. observe. repeat split.
  - prun. observe. repeat split.
Qed.

End Iteration.

Lemma matches_QUET_THE (DATA UID : list BYTE) :
  fst (Card.QUET_THE DATA UID false) = true <-> Firmware.matches DATA UID.
Proof. unfold Card.QUET_THE. cbn [fst]. apply QUET_THE_loop_four. Qed.

Lemma last_cons (A : Type) (a d : A) (l : list A) : last (a :: l) d = last l a.
Proof.
  revert a d. induction l as [|b l IH]; intros a d; [reflexivity|].
  change (last (a :: b :: l) d) with (last (b :: l) d).
  rewrite (IH b d), (IH b a). reflexivity.
Qed.

Lemma lock_levels_last (swipes : list Firmware.swipe) : forall tam,
  last (Firmware.lock_levels tam swipes) tam = Firmware.door_after tam swipes /\
  length (Firmware.lock_levels tam swipes)
  = length (filter Firmware.is_authorised swipes).
Proof.
  induction swipes as [|s rest IH]; intros tam; [split; reflexivity|].
  unfold Firmware.door_after. cbn [Firmware.lock_levels fold_left filter].
  destruct (Firmware.is_authorised s).
  - rewrite last_cons. cbn [length].
    destruct (IH (negb tam)) as [-> ->]. split; reflexivity.
  - apply IH.
Qed.

(** X9. A pass of the loop with no card in the field, or with a card whose
    serial cannot be read, changes no global, writes neither the lock pin nor
    the buzzer pin, and calls [MFRC522_Halt] exactly when a card was
    detected. *)
Theorem pass_without_card (dev : Device) (fuel : nat) (s : Firmware.swipe)
        (d d' : dstate dev) (g g' : Firmware.globals)
        (t : list Firmware.event) :
  Firmware.card s = false \/ Firmware.serial s = None ->
  Firmware.main_iteration dev fuel s d g = Some (tt, d', g', t) ->
  g' = g /\
  Firmware.pin_writes Firmware.PIN_C1 t = [] /\
  Firmware.pin_writes Firmware.PIN_C0 t = [] /\
  Firmware.reader_calls t
  = (if Firmware.card s
     then [Firmware.MFRC522_isCard; Firmware.MFRC522_ReadCardSerial;
           Firmware.MFRC522_Halt]
     else [Firmware.MFRC522_isCard]).
Proof.
  intros Hs H. apply main_iteration_obs in H.
  destruct H as (_ & H1 & H0 & HR & Hg).
  unfold Firmware.is_authorised in H1.
  destruct s as [c ser]. cbn [Firmware.card Firmware.serial] in *.
  destruct Hs as [-> | ->].
  - destruct ser; repeat split; assumption.
  - destruct c; repeat split; assumption.
Qed.

Lemma pass_without_card_witness :
  exists d' t,
    Firmware.main_iteration idle_device 1
      {| Firmware.card := true; Firmware.serial := None |}
      tt Firmware.reset_globals
    = Some (tt, d', Firmware.reset_globals, t) /\
    Firmware.reader_calls t
    = [Firmware.MFRC522_isCard; Firmware.MFRC522_ReadCardSerial;
       Firmware.MFRC522_Halt].
Proof.
  do 2 eexists. split; [vm_compute; reflexivity|].
  refine (proj2 (proj2 (proj2
    (@pass_without_card idle_device 1
       {| Firmware.card := true; Firmware.serial := None |}
       tt _ Firmware.reset_globals _ _ (or_intror eq_refl) _)))).
  vm_compute. reflexivity.
Defined.

(** X10. A pass with a card whose first four serial bytes are those of
    [DATA_TRUNG] or of [DATA_HUY] flips [TAM] and writes the lock pin once,
    high if [TAM] was 0 and low if it was 1; the buzzer gives three beeps of
    3 ms; [tt_1] and [tt_2] record which list entry matched.  Bytes 4 and 5
    of the serial play no part. *)
Theorem authorised_swipe (dev : Device) (fuel : nat) (UID : list BYTE)
        (d d' : dstate dev) (g g' : Firmware.globals)
        (t : list Firmware.event) :
  Firmware.authorised UID ->
  Firmware.main_iteration dev fuel
    {| Firmware.card := true; Firmware.serial := Some UID |} d g
  = Some (tt, d', g', t) ->
  Firmware.TAM g' = negb (Firmware.TAM g) /\
  Firmware.pin_writes Firmware.PIN_C1 t = [negb (Firmware.TAM g)] /\
  Firmware.pin_writes Firmware.PIN_C0 t = Firmware.beeps 3 3 /\
  (Firmware.tt_1 g' = 1 <-> Firmware.matches Card.DATA_TRUNG UID) /\
  (Firmware.tt_2 g' = 1 <-> Firmware.matches Card.DATA_HUY UID).
Proof.
  intros Ha H. apply main_iteration_obs in H.
  cbn [Firmware.card Firmware.serial Firmware.is_authorised andb] in H.
  apply on_list_authorised in Ha. rewrite Ha in H.
  destruct H as (HT & H1 & H0 & _ & Ht1 & Ht2 & _).
  repeat split; try assumption.
  - rewrite Ht1. intros E. apply matches_QUET_THE.
    destruct (fst (Card.QUET_THE Card.DATA_TRUNG UID false));
      [reflexivity | discriminate].
  - intros E. apply matches_QUET_THE in E. rewrite Ht1, E. reflexivity.
  - rewrite Ht2. intros E. apply matches_QUET_THE.
    destruct (fst (Card.QUET_THE Card.DATA_HUY UID false));
      [reflexivity | discriminate].
  - intros E. apply matches_QUET_THE in E. rewrite Ht2, E. reflexivity.
Qed.

Lemma authorised_swipe_witness :
  exists d' g' t,
    Firmware.main_iteration idle_device 1
      {| Firmware.card := true;
         Firmware.serial := Some [0x73; 0x9F; 0x6F; 0x13; 0xAA; 0xBB] |}
      tt Firmware.reset_globals
    = Some (tt, d', g', t) /\
    Firmware.TAM g' = true /\
    Firmware.pin_writes Firmware.PIN_C1 t = [true].
Proof.
  do 3 eexists. split; [vm_compute; reflexivity|].
  assert (Ha : Firmware.authorised [0x73; 0x9F; 0x6F; 0x13; 0xAA; 0xBB]).
  { right. intros i Hi.
    assert (Hc : i = 0 \/ i = 1 \/ i = 2 \/ i = 3) by lia.
    destruct Hc as [-> | [-> | [-> | ->]]]; reflexivity. }
  split.
  - refine (proj1 (@authorised_swipe idle_device 1 _ tt _
                     Firmware.reset_globals _ _ Ha _)).
    vm_compute. reflexivity.
  - refine (proj1 (proj2 (@authorised_swipe idle_device 1 _ tt _
                            Firmware.reset_globals _ _ Ha _))).
    vm_compute. reflexivity.
Defined.

(** X11. A pass with a card that is on neither list leaves [TAM] as it was
    and never writes the lock pin; the buzzer gives ten beeps of 10 ms, and
    [tt_1] and [tt_2] are both 0. *)
Theorem unauthorised_swipe (dev : Device) (fuel : nat) (UID : list BYTE)
        (d d' : dstate dev) (g g' : Firmware.globals)
        (t : list Firmware.event) :
  ~ Firmware.authorised UID ->
  Firmware.main_iteration dev fuel
    {| Firmware.card := true; Firmware.serial := Some UID |} d g
  = Some (tt, d', g', t) ->
  Firmware.TAM g' = Firmware.TAM g /\
  Firmware.pin_writes Firmware.PIN_C1 t = [] /\
  Firmware.pin_writes Firmware.PIN_C0 t = Firmware.beeps 10 10 /\
  Firmware.tt_1 g' = 0 /\ Firmware.tt_2 g' = 0.
Proof.
  intros Ha H. apply main_iteration_obs in H.
  cbn [Firmware.card Firmware.serial Firmware.is_authorised andb] in H.
  assert (Hl : Firmware.on_list UID = false).
  { destruct (Firmware.on_list UID) eqn:E; [|reflexivity].
    apply on_list_authorised in E. contradiction. }
  rewrite Hl in H.
  destruct H as (HT & H1 & H0 & _ & Ht1 & Ht2 & _).
  unfold Firmware.on_list in Hl. apply orb_false_iff in Hl.
  destruct Hl as [E1 E2]. rewrite E1 in Ht1. rewrite E2 in Ht2.
  repeat split; assumption.
Qed.

Lemma unauthorised_swipe_witness :
  exists d' g' t,
    Firmware.main_iteration idle_device 1
      {| Firmware.card := true;
         Firmware.serial := Some [0x73; 0x9F; 0x6F; 0x14; 0xAA; 0xBB] |}
      tt Firmware.reset_globals
    = Some (tt, d', g', t) /\
    Firmware.pin_writes Firmware.PIN_C1 t = [].
Proof.
  do 3 eexists. split; [vm_compute; reflexivity|].
  refine (proj1 (proj2 (@unauthorised_swipe idle_device 1
                          [0x73; 0x9F; 0x6F; 0x14; 0xAA; 0xBB] tt _
                          Firmware.reset_globals _ _ _ _))).
  - intros [Hm | Hm].
    + specialize (Hm 0 ltac:(lia)). vm_compute in Hm. discriminate.
    + specialize (Hm 3 ltac:(lia)). vm_compute in Hm. discriminate.
  - vm_compute. reflexivity.
Defined.

(** X12. Over any run of passes of the loop, the lock pin is written once
    per authorised swipe and never otherwise, each write is the new value of
    [TAM], and so after the run [TAM] equals the last level written to the
    lock (or its old value if there was no write): one flag serves all
    cards, so a door opened by one card is closed by the next authorised
    card, whoever holds it. *)
Theorem lock_follows_TAM (dev : Device) (fuel : nat)
        (swipes : list Firmware.swipe) :
  forall (d d' : dstate dev) (g g' : Firmware.globals)
         (t : list Firmware.event),
    Firmware.main_loop dev fuel swipes d g = Some (tt, d', g', t) ->
    Firmware.TAM g' = Firmware.door_after (Firmware.TAM g) swipes /\
    Firmware.pin_writes Firmware.PIN_C1 t
    = Firmware.lock_levels (Firmware.TAM g) swipes /\
    length (Firmware.pin_writes Firmware.PIN_C1 t)
    = length (filter Firmware.is_authorised swipes) /\
    last (Firmware.pin_writes Firmware.PIN_C1 t) (Firmware.TAM g)
    = Firmware.TAM g'.
Proof.
  assert (Hmain : forall d d' g g' t,
             Firmware.main_loop dev fuel swipes d g = Some (tt, d', g', t) ->
             Firmware.TAM g' = Firmware.door_after (Firmware.TAM g) swipes /\
             Firmware.pin_writes Firmware.PIN_C1 t
             = Firmware.lock_levels (Firmware.TAM g) swipes).
  { induction swipes as [|s rest IH]; intros d d' g g' t H.
    - cbv [Firmware.main_loop Firmware.pret] in H.
      apply run_inj in H. destruct H as (_ & _ & <- & <-).
      split; reflexivity.
    - cbn [Firmware.main_loop] in H. apply pbind_Some in H.
      destruct H as ([] & d1 & g1 & t1 & t2 & H1 & H2 & ->).
      apply main_iteration_obs in H1. destruct H1 as (HT & HL & _).
      apply IH in H2. destruct H2 as (HT2 & HL2).
      rewrite pin_writes_app, HL, HL2, HT2, HT.
      unfold Firmware.door_after. cbn [Firmware.lock_levels fold_left].
      destruct (Firmware.is_authorised s); split; reflexivity. }
  intros d d' g g' t H. destruct (Hmain d d' g g' t H) as (HT & HL).
  destruct (lock_levels_last swipes (Firmware.TAM g)) as (Hlast & Hlen).
  rewrite HL, HT. repeat split; assumption.
Qed.

Lemma lock_follows_TAM_witness :
  exists d' g' t,
    Firmware.main_loop idle_device 1
      [ {| Firmware.card := true;
           Firmware.serial := Some [0xD3; 0x4D; 0xFC; 0x27; 0; 0] |};
        {| Firmware.card := false; Firmware.serial := None |};
        {| Firmware.card := true;
           Firmware.serial := Some [0x73; 0x9F; 0x6F; 0x13; 0; 0] |} ]
      tt Firmware.reset_globals
    = Some (tt, d', g', t) /\
    Firmware.TAM g' = false /\
    Firmware.pin_writes Firmware.PIN_C1 t = [true; false].
Proof.
  set (sw := [ {| Firmware.card := true;
                  Firmware.serial := Some [0xD3; 0x4D; 0xFC; 0x27; 0; 0] |};
               {| Firmware.card := false; Firmware.serial := None |};
               {| Firmware.card := true;
                  Firmware.serial := Some [0x73; 0x9F; 0x6F; 0x13; 0; 0] |} ]).
  do 3 eexists. split; [vm_compute; reflexivity|].
  split.
  - refine (proj1 (@lock_follows_TAM idle_device 1 sw tt _
                     Firmware.reset_globals _ _ _)).
    vm_compute. reflexivity.
  - refine (proj1 (proj2 (@lock_follows_TAM idle_device 1 sw tt _
                            Firmware.reset_globals _ _ _))).
    vm_compute. reflexivity.
Defined.

(** ** What reaches the display *)

Lemma shows_nil : shows [] [].
Proof. intros l rest. reflexivity. Qed.

Lemma shows_app (t1 t2 : list bus_op) (b1 b2 : list (bool * Z)) :
  shows t1 b1 -> shows t2 b2 -> shows (t1 ++ t2) (b1 ++ b2).
Proof.
  intros H1 H2 l rest.
  rewrite written_app, <- !app_assoc, H1, H2. reflexivity.
Qed.

Lemma shows_delay (n : Z) : shows [DelayMs n] [].
Proof. intros l rest. rewrite written_delay. reflexivity. Qed.

Lemma shows_bytes (t : list bus_op) (bs : list (bool * Z)) (l : lines) :
  shows t bs -> bytes_of (written l t) = bs.
Proof.
  intros H. specialize (H l []). rewrite !app_nil_r in H. exact H.
Qed.

Lemma bus_ops_app (t1 t2 : list Firmware.event) :
  Firmware.bus_ops (t1 ++ t2) = Firmware.bus_ops t1 ++ Firmware.bus_ops t2.
Proof. apply flat_map_app. Qed.

Lemma bus_ops_bus (t : list bus_op) :
  Firmware.bus_ops (map Firmware.Bus t) = t.
Proof.
  induction t as [|op t IH]; [reflexivity|].
  cbn [map Firmware.bus_ops flat_map app].
  fold (Firmware.bus_ops (map Firmware.Bus t)). rewrite IH. reflexivity.
Qed.

Lemma shows_bipbip (hoi tieng : Z) :
  shows (Firmware.bus_ops (Firmware.bipbip_events hoi tieng)) [].
Proof.
  unfold Firmware.bipbip_events.
  assert (Hin : forall k,
             shows (Firmware.bus_ops
                      (concat (repeat [Firmware.OutputHigh Firmware.PIN_C0;
                                       Firmware.Bus (DelayMs 1)] k))) []).
  { induction k as [|k IH]; [apply shows_nil|].
    cbn [repeat concat]. rewrite bus_ops_app.
    apply (@shows_app _ _ [] []); [apply shows_delay | exact IH]. }
  induction (Z.to_nat hoi) as [|k IH]; [apply shows_nil|].
  cbn [repeat concat]. rewrite !bus_ops_app.
  apply (@shows_app _ _ [] []); [|exact IH].
  apply (@shows_app _ _ [] []); [apply Hin | apply shows_delay].
Qed.

Lemma text_bytes_range (s : String.string) :
  Forall (fun c => 0 <= c < 256) (Text.bytes s).
Proof.
  unfold Text.bytes. apply Forall_forall. intros c Hc.
  apply in_map_iff in Hc. destruct Hc as (a & <- & _).
  pose proof (Ascii.N_ascii_bounded a). lia.
Qed.

Section Shows.

Variable dev : Device.
Variable fuel : nat.

Lemma shows_send_byte address n d u d' t :
  0 <= n < 256 ->
  lcd_send_byte dev fuel address n d = Some (u, d', t) ->
  shows t [(address, n)].
Proof.
  intros Hn H l rest. destruct u.
  rewrite (@written_send_byte dev fuel address n d d' t l H).
  cbn [app bytes_of]. rewrite byte_of_nibbles by assumption. reflexivity.
Qed.

Lemma shows_gotoxy x y d u d' t :
  lcd_gotoxy dev fuel x y d = Some (u, d', t) ->
  shows t [(false, Z.lor 0x80 ((offset y + x - 1) mod 256))].
Proof.
  rewrite lcd_gotoxy_unfold, gotoxy_address_wrap.
  apply shows_send_byte.
  apply lor_byte_range; [lia|]. apply Z.mod_pos_bound. lia.
Qed.

Lemma shows_printf s :
  Forall (fun c => 0 <= c < 256) s ->
  forall d u d' t,
    printf_LCD_PUTC dev fuel s d = Some (u, d', t) ->
    shows t (map putc_byte s).
Proof.
  induction 1 as [|c s Hc _ IH]; intros d u d' t H.
  - injection H as _ _ <-. apply shows_nil.
  - cbn [printf_LCD_PUTC] in H. apply bind_Some in H.
    destruct H as ([] & d1 & t1 & t2 & H1 & H2 & ->).
    apply (@shows_app t1 t2 [putc_byte c]); [|eapply IH; eassumption].
    intros l rest.
    destruct (@written_putc dev fuel c d d1 t1 l Hc H1) as (h & lo & -> & Hb).
    cbn [app bytes_of]. rewrite Hb. destruct (putc_byte c); reflexivity.
Qed.

Lemma shows_delay_run n d u d' t :
  delay_ms dev n d = Some (u, d', t) -> shows t [].
Proof. intros H. injection H as _ _ <-. apply shows_delay. Qed.

End Shows.

Ltac gather :=
  repeat match goal with
    | H : printf_LCD_PUTC _ _ _ _ = Some _ |- _ =>
        apply shows_printf in H;
        [|solve [apply text_bytes_range | assumption]]
    | H : lcd_gotoxy _ _ _ _ _ = Some _ |- _ => apply shows_gotoxy in H
    | H : delay_ms _ _ _ = Some _ |- _ => apply shows_delay_run in H
    end.

Ltac segments :=
  repeat match goal with
    | |- shows (_ ++ _) _ => eapply shows_app
    | |- shows (Firmware.bus_ops (Firmware.bipbip_events _ _)) _ =>
        apply shows_bipbip
    | |- shows [] _ => apply shows_nil
    | |- shows _ _ => eassumption
    end.

Ltac display :=
  gather;
  repeat rewrite bus_ops_app;
  repeat rewrite bus_ops_bus;
  cbn [Firmware.bus_ops flat_map app];
  eexists; split; [segments | cbn [app]; rewrite ?app_nil_r; reflexivity].

Section Display.

Variable dev : Device.
Variable fuel : nat.

Lemma door_shows name d g d' g' t :
  Forall (fun c => 0 <= c < 256) name ->
  Firmware.door dev fuel name d g = Some (tt, d', g', t) ->
  exists bs,
    shows (Firmware.bus_ops t) bs /\
    bs = Firmware.door_display name (Firmware.TAM g).
Proof.
  unfold Firmware.door, Firmware.door_display. intros Hn H.
  destruct g as [the tam t1 t2]. destruct tam; prun; display.
Qed.

Lemma main_iteration_shows s d g d' g' t :
  Firmware.main_iteration dev fuel s d g = Some (tt, d', g', t) ->
  shows (Firmware.bus_ops t) (Firmware.pass_display s (Firmware.TAM g)).
Proof.
  destruct s as [c ser].
  unfold Firmware.main_iteration, Firmware.pass_display.
  cbn [Firmware.card Firmware.serial]. intros H.
  assert (Hgoal : exists bs,
             shows (Firmware.bus_ops t) bs /\
             bs = map putc_byte Text.prompt ++
                  (if c
                   then match ser with
                        | Some UID =>
                            if fst (Card.QUET_THE Card.DATA_TRUNG UID false)
                            then Firmware.door_display Text.thanh_trung
                                   (Firmware.TAM g)
                            else if fst (Card.QUET_THE Card.DATA_HUY UID false)
                            then Firmware.door_display Text.thanh_huy
                                   (Firmware.TAM g)
                            else [(false, 0xFF)] ++ map putc_byte Text.invalid
                                 ++ [(false, 0xC3)]
                                 ++ map putc_byte Text.warning
                        | None => []
                        end
                   else []));
    [|destruct Hgoal as (bs & Hs & ->); exact Hs].
  destruct c; destruct ser as [UID|].
  - prun. norm_quet.
    destruct (fst (Card.QUET_THE Card.DATA_TRUNG UID false)) eqn:E1;
      [|destruct (fst (Card.QUET_THE Card.DATA_HUY UID false)) eqn:E2];
      cbn [b2z Z.eqb Pos.eqb] in *.
    + match goal with
      | Hd : Firmware.door _ _ _ _ _ = Some (?u, _, _, _) |- _ =>
          destruct u; apply door_shows in Hd;
          [destruct Hd as (bd & Hd & ->) | apply text_bytes_range]
      end.
      cbn [Firmware.TAM]. display.
    + match goal with
      | Hd : Firmware.door _ _ _ _ _ = Some (?u, _, _, _) |- _ =>
          destruct u; apply door_shows in Hd;
          [destruct Hd as (bd & Hd & ->) | apply text_bytes_range]
      end.
      cbn [Firmware.TAM]. display.
    + prun. display.
  - prun. display.
  - prun. display.
  - prun. display.
Qed.

End Display.

(** X13. What a pass of the loop puts on the display bus, whatever the
    device answers: form feed and the prompt; then, for a card on the list,
    form feed and the holder's name, the address command 0xBF that
    [lcd_gotoxy(0, 2)] produces, and the text for opening ([TAM] = 0) or
    closing ([TAM] = 1); for a card on neither list, the address command
    0xFF of [lcd_gotoxy(0, 1)], the rejection text, the address command 0xC3
    and the warning; and nothing more when no serial was read.  The
    [DATA_TRUNG] test comes first. *)
Theorem pass_on_display (dev : Device) (fuel : nat) (s : Firmware.swipe)
        (d d' : dstate dev) (g g' : Firmware.globals)
        (t : list Firmware.event) (l : lines) :
  Firmware.main_iteration dev fuel s d g = Some (tt, d', g', t) ->
  bytes_of (written l (Firmware.bus_ops t))
  = Firmware.pass_display s (Firmware.TAM g).
Proof.
  intros H. apply shows_bytes. eapply main_iteration_shows. exact H.
Qed.

Lemma pass_on_display_witness :
  exists d' g' t,
    Firmware.main_iteration idle_device 1
      {| Firmware.card := true;
         Firmware.serial := Some [0x73; 0x9F; 0x6F; 0x14; 0xAA; 0xBB] |}
      tt Firmware.reset_globals
    = Some (tt, d', g', t) /\
    bytes_of (written idle_lines (Firmware.bus_ops t))
    = map putc_byte Text.prompt ++ [(false, 0xFF)]
      ++ map putc_byte Text.invalid ++ [(false, 0xC3)]
      ++ map putc_byte Text.warning.
Proof.
  do 3 eexists. split; [vm_compute; reflexivity|].
  refine (@pass_on_display idle_device 1
            {| Firmware.card := true;
               Firmware.serial := Some [0x73; 0x9F; 0x6F; 0x14; 0xAA; 0xBB] |}
            tt _ Firmware.reset_globals _ _ idle_lines _).
  vm_compute. reflexivity.
Defined.

(** X14. [main] before its loop: the first thing on the display bus is the
    whole of [lcd_init]; after it come the address command 0xFF of
    [lcd_gotoxy(0, 1)], the title, the address command 0xC5, the group name,
    and the two progress texts.  The reader is initialised exactly once, the
    lock and the buzzer are not touched and no global changes. *)
Theorem startup_sequence (dev : Device) (fuel : nat) (d d' : dstate dev)
        (g g' : Firmware.globals) (t : list Firmware.event) :
  Firmware.main_startup dev fuel d g = Some (tt, d', g', t) ->
  g' = g /\
  Firmware.pin_writes Firmware.PIN_C0 t = [] /\
  Firmware.pin_writes Firmware.PIN_C1 t = [] /\
  Firmware.reader_calls t = [Firmware.MFRC522_Init] /\
  exists d1 t_init rest,
    lcd_init dev fuel d = Some (tt, d1, t_init) /\
    Firmware.bus_ops t = t_init ++ rest /\
    forall l, bytes_of (written l rest) = Firmware.startup_display.
Proof.
  unfold Firmware.main_startup. intros H. prun.
  match goal with
  | Hi : lcd_init _ _ _ = Some (?u, _, _) |- _ => destruct u
  end.
  split; [reflexivity|]. split; [observe; reflexivity|].
  split; [observe; reflexivity|]. split; [observe; reflexivity|].
  do 3 eexists. split; [eassumption|].
  rewrite !bus_ops_app, !bus_ops_bus. cbn [Firmware.bus_ops flat_map app].
  split; [reflexivity|].
  intros l. apply shows_bytes.
  match goal with
  | |- shows ?X ?B =>
      assert (Hs : exists bs, shows X bs /\ bs = B);
      [|destruct Hs as (bs & Hs & ->); exact Hs]
  end.
  gather. eexists. split; [segments|].
  unfold Firmware.startup_display. cbn [app]. rewrite ?app_nil_r. reflexivity.
Qed.

Lemma startup_sequence_witness :
  exists d' g' t,
    Firmware.main_startup idle_device 1 tt Firmware.reset_globals
    = Some (tt, d', g', t) /\
    Firmware.reader_calls t = [Firmware.MFRC522_Init].
Proof.
  do 3 eexists. split; [vm_compute; reflexivity|].
  refine (proj1 (proj2 (proj2 (proj2
    (@startup_sequence idle_device 1 tt _ Firmware.reset_globals _ _ _))))).
  vm_compute. reflexivity.
Defined.

(** ** The loop stops at the first clear status read *)

Section FirstClear.

Variable dev : Device.

Lemma after_polls_S k : forall d,
  after_polls dev (S k) d = read_state dev (after_polls dev k d).
Proof.
  induction k as [|k IH]; intros d; [reflexivity|].
  change (after_polls dev (S (S k)) d)
    with (after_polls dev (S k) (read_state dev d)).
  rewrite IH. reflexivity.
Qed.

Lemma samples_read_trace d : length (samples (read_trace dev d)) = 8%nat.
Proof. reflexivity. Qed.

Lemma busy_wait_first n : forall d d' t,
  busy_wait dev n d = Some (tt, d', t) ->
  exists k,
    (k < n)%nat /\
    bit_test (read_value dev (after_polls dev k d)) 7 = false /\
    (forall j, (j < k)%nat ->
               bit_test (read_value dev (after_polls dev j d)) 7 = true) /\
    d' = after_polls dev (S k) d /\
    length (samples t) = (8 * S k)%nat /\
    busy_wait dev (S k) d = Some (tt, d', t).
Proof.
  induction n as [|n IH]; intros d d' t H; [discriminate|].
  pose proof H as H0. rewrite busy_wait_S in H.
  destruct (bit_test (read_value dev d) 7) eqn:Hb.
  - destruct (busy_wait dev n (read_state dev d)) as [[[[] d1] t1]|] eqn:Hw;
      [|discriminate].
    assert (Hd1 : d' = d1) by congruence.
    assert (Ht : t = read_trace dev d ++ t1) by congruence.
    subst d' t. clear H.
    destruct (IH _ _ _ Hw) as (k & Hk & Hc & Hall & Hd & Hl & Hr).
    exists (S k). repeat split.
    + lia.
    + exact Hc.
    + intros [|j] Hj; [exact Hb|]. apply Hall. lia.
    + exact Hd.
    + rewrite samples_app, length_app, samples_read_trace, Hl. lia.
    + rewrite busy_wait_S, Hb, Hr. reflexivity.
  - assert (Hd1 : d' = read_state dev d) by congruence.
    assert (Ht : t = read_trace dev d) by congruence.
    subst d' t. clear H.
    exists O. repeat split.
    + lia.
    + exact Hb.
    + intros j Hj. lia.
    + rewrite busy_wait_S, Hb. reflexivity.
Qed.

End FirstClear.

(** X15. [lcd_send_byte] polls the status exactly until the first read that
    shows bit 7 clear: if that is the read number [k] (from 0), the call
    samples the data lines [8 * (k + 1)] times, its result is the same for
    every bound above [k], and with a bound of [k] or less it has no
    result. *)
Theorem send_byte_first_clear (dev : Device) (fuel : nat) (address : bool)
        (n : BYTE) (d d' : dstate dev) (t : list bus_op) :
  lcd_send_byte dev fuel address n d = Some (tt, d', t) ->
  exists k,
    (k < fuel)%nat /\
    bit_test (read_value dev
                (after_polls dev k
                   (dev_step dev d (OutputBit LCD_RS_PIN false)))) 7 = false /\
    (forall j, (j < k)%nat ->
       bit_test (read_value dev
                   (after_polls dev j
                      (dev_step dev d (OutputBit LCD_RS_PIN false)))) 7 = true) /\
    length (samples t) = (8 * (k + 1))%nat /\
    (forall fuel', (k < fuel')%nat ->
       lcd_send_byte dev fuel' address n d = Some (tt, d', t)) /\
    (forall fuel', (fuel' <= k)%nat ->
       lcd_send_byte dev fuel' address n d = None).
Proof.
  intros H. rewrite lcd_send_byte_unfold in H.
  destruct (busy_wait dev fuel _) as [[[[] d1] tp]|] eqn:Hw; [|discriminate].
  assert (Hd' : d' = run_ops dev d1 (transfer_ops address n)) by congruence.
  assert (Ht : t = OutputBit LCD_RS_PIN false :: tp ++ transfer_ops address n)
    by congruence.
  subst d' t. clear H.
  destruct (@busy_wait_first dev fuel _ _ _ Hw)
    as (k & Hk & Hc & Hall & Hd & Hl & Hr).
  exists k. repeat split; try assumption.
  - change (OutputBit LCD_RS_PIN false :: tp ++ transfer_ops address n)
      with ([OutputBit LCD_RS_PIN false] ++ tp ++ transfer_ops address n).
    rewrite !samples_app, !length_app, Hl.
    change (length (samples [OutputBit LCD_RS_PIN false])) with O.
    change (length (samples (transfer_ops address n))) with O. lia.
  - intros fuel' Hf. rewrite lcd_send_byte_unfold.
    rewrite (@busy_wait_mono dev (S k) _ _ fuel' Hr) by lia. reflexivity.
  - intros fuel' Hf. rewrite lcd_send_byte_unfold.
    destruct (busy_wait dev fuel' _) as [[[[] d2] t2]|] eqn:Hw2; [|reflexivity].
    destruct (@busy_wait_first dev fuel' _ _ _ Hw2) as (k2 & Hk2 & Hc2 & _).
    rewrite Hall in Hc2 by lia. discriminate.
Qed.

Lemma send_byte_first_clear_witness :
  exists d' t k,
    lcd_send_byte (HD44780.device 2) 3 true 0x41 HD44780.settling
    = Some (tt, d', t) /\
    (k < 3)%nat /\
    length (samples t) = (8 * (k + 1))%nat /\
    lcd_send_byte (HD44780.device 2) k true 0x41 HD44780.settling = None.
Proof.
  assert (H : exists d' t,
             lcd_send_byte (HD44780.device 2) 3 true 0x41 HD44780.settling
             = Some (tt, d', t))
    by (do 2 eexists; vm_compute; reflexivity).
  destruct H as (d' & t & H).
  destruct (@send_byte_first_clear (HD44780.device 2) 3 true 0x41
              HD44780.settling d' t H) as (k & Hk & _ & _ & Hl & _ & Hn).
  exists d', t, k. repeat split; try assumption.
  apply Hn. lia.
Defined.

Section ControlLines.

Variable dev : Device.
Variable fuel : nat.

Lemma drives_after_send_byte_control address n d d' t p init :
  lcd_send_byte dev fuel address n d = Some (tt, d', t) ->
  is_data_pin p = false -> drives_after p init t = init.
Proof.
  rewrite lcd_send_byte_unfold.
  destruct (busy_wait dev fuel _) as [[[u d1] tp]|] eqn:Hw; [|discriminate].
  intros H Hp.
  assert (Ht : t = OutputBit LCD_RS_PIN false :: tp ++ transfer_ops address n)
    by congruence.
  subst t. clear H. apply busy_wait_polls in Hw.
  change (OutputBit LCD_RS_PIN false :: tp ++ transfer_ops address n)
    with ([OutputBit LCD_RS_PIN false] ++ tp ++ transfer_ops address n).
  rewrite !drives_after_app.
  assert (Hd : forall i, drives_after p i tp = i).
  { clear - Hw Hp. induction Hw as [x Hb|x tx x' Hb _ IH]; intros i.
    - destruct p; try discriminate; reflexivity.
    - rewrite drives_after_app, IH. destruct p; try discriminate; reflexivity. }
  rewrite Hd. destruct p; try discriminate; reflexivity.
Qed.

End ControlLines.

(** X16. When [lcd_init] returns, whatever the lines and their directions
    were before: it began by making all seven lines outputs, Enable,
    register-select and read/write are low, and all seven lines are
    outputs. *)
Theorem init_leaves_bus (dev : Device) (fuel : nat) (d d' : dstate dev)
        (t : list bus_op) (l : lines) :
  lcd_init dev fuel d = Some (tt, d', t) ->
  (exists rest,
      t = [OutputDrive LCD_DATA4; OutputDrive LCD_DATA5;
           OutputDrive LCD_DATA6; OutputDrive LCD_DATA7;
           OutputDrive LCD_ENABLE_PIN; OutputDrive LCD_RS_PIN;
           OutputDrive LCD_RW_PIN] ++ rest) /\
  l_en (lines_after l t) = false /\
  l_rs (lines_after l t) = false /\
  l_rw (lines_after l t) = false /\
  forall p init, drives_after p init t = true.
Proof.
  intros H. apply lcd_init_inv in H.
  destruct H as (d1 & d2 & d3 & t1 & t2 & t3 & t4 & H1 & H2 & H3 & H4 & ->).
  split; [eexists; reflexivity|].
  rewrite !lines_after_app.
  rewrite (@lines_after_send_byte dev fuel false 6 d3 d' t4 _ H4).
  repeat split.
  intros p init. rewrite !drives_after_app.
  destruct (is_data_pin p) eqn:Hp.
  - eapply drives_after_send_byte; eassumption.
  - rewrite (@drives_after_send_byte_control dev fuel false _ _ _ t4 p _ H4 Hp).
    rewrite (@drives_after_send_byte_control dev fuel false _ _ _ t3 p _ H3 Hp).
    rewrite (@drives_after_send_byte_control dev fuel false _ _ _ t2 p _ H2 Hp).
    rewrite (@drives_after_send_byte_control dev fuel false _ _ _ t1 p _ H1 Hp).
    destruct p; try discriminate; reflexivity.
Qed.

Lemma init_leaves_bus_witness :
  exists d' t,
    lcd_init (HD44780.device 2) 3 HD44780.power_on = Some (tt, d', t) /\
    drives_after LCD_RS_PIN false t = true.
Proof.
  do 2 eexists. split; [vm_compute; reflexivity|].
  refine (proj2 (proj2 (proj2 (proj2
    (@init_leaves_bus (HD44780.device 2) 3 HD44780.power_on _ _
       idle_lines _)))) LCD_RS_PIN false).
  vm_compute. reflexivity.
Defined.
